(** * User-management service (task16.py): a shallow embedding

    The service is a FastAPI application with four stateful request
    handlers ([register], [login], [forgot_password], [reset_password])
    over one SQLAlchemy table, [users].  The handlers are embedded as
    computations in a small state-and-exception monad over a [World]
    holding the committed table rows, the session's unit of work, the
    number of sessions that are still open and a chronological trace of
    the calls a handler makes.

    What the source does not define is taken as an interface:
    passlib's [pwd_context], PyJWT's [jwt.encode]/[jwt.decode] and
    pydantic's [EmailStr].  The hasher refuses some passwords (bcrypt
    through passlib raises on a NUL byte), so hashing and verifying are
    partial.  Logging calls have no effect on the modelled state and are
    left out.  Strings are ASCII strings. *)

From Stdlib Require Import String Ascii List ZArith Bool Lia DecimalString.
Import ListNotations.

Local Open Scope string_scope.
Local Open Scope list_scope.
Local Open Scope Z_scope.

(* ===================================================================== *)
(** ** Data model *)
(* ===================================================================== *)

(** [class User(Base)]: one row of the table [users].  The two reset
    columns are nullable. *)
Module User.
Record t := mk {
  id : Z;
  first_name : string;
  last_name : string;
  email : string;
  phone_number : Z;
  password : string;
  created_at : Z;
  reset_token : option string;
  reset_token_expires : option Z
}.
End User.

(** The JSON body of [POST /register] before pydantic has looked at it. *)
Module Body.
Record t := mk {
  first_name : string;
  last_name : string;
  email : string;
  phone_number : string;
  password : string
}.
End Body.

(** [class UserCreate(BaseModel)] after validation: the phone number
    validator returns [int(v)], so the field holds an integer. *)
Module UserCreate.
Record t := mk {
  first_name : string;
  last_name : string;
  email : string;
  phone_number : Z;
  password : string
}.
End UserCreate.

(** The claims of a reset token: [{"email": ..., "exp": ...}].
    [payload.get("email")] is [None] when the claim is missing. *)
Record Payload := mkPayload {
  payload_email : option string;
  payload_exp : Z
}.

(** What [jwt.decode] does: return the claims or raise one of two errors
    ([ExpiredSignatureError] is a subclass of [InvalidTokenError]). *)
Inductive Decoded :=
| Claims (p : Payload)
| Expired
| Invalid.

(** Exceptions that travel through the handlers.  [SQLAlchemyError]
    stands for any exception raised by the store; a
    [RequestValidationError] is raised by the framework when the body does
    not validate as [UserCreate]; [PasswordValueError] is what the hasher
    raises on a password it refuses. *)
Inductive Exn :=
| HTTPException (status_code : Z) (detail : string)
| ExpiredSignatureError
| InvalidTokenError
| SQLAlchemyError
| RequestValidationError
| PasswordValueError.

(** Calls a handler makes, in the order it makes them. *)
Inductive Event :=
| EvSessionLocal
| EvHash
| EvVerify
| EvQuery
| EvAdd
| EvSetAttr
| EvCommit
| EvRefresh
| EvRollback
| EvClose
| EvJwtEncode
| EvJwtDecode
| EvAddTask (recipient : string) (body : string).

Definition Event_eqb (a b : Event) : bool :=
  match a, b with
  | EvSessionLocal, EvSessionLocal | EvHash, EvHash | EvVerify, EvVerify
  | EvQuery, EvQuery | EvAdd, EvAdd | EvSetAttr, EvSetAttr
  | EvCommit, EvCommit | EvRefresh, EvRefresh | EvRollback, EvRollback
  | EvClose, EvClose | EvJwtEncode, EvJwtEncode
  | EvJwtDecode, EvJwtDecode => true
  | EvAddTask r1 b1, EvAddTask r2 b2 => String.eqb r1 r2 && String.eqb b1 b2
  | _, _ => false
  end.

(** An attribute assignment on a loaded row ([user.password = ...]). *)
Inductive Assign :=
| SetPassword (v : string)
| SetResetToken (v : option string)
| SetResetTokenExpires (v : option Z).

(** The session's unit of work: what the next [commit] will write. *)
Inductive Write :=
| Insert (first_name last_name email : string) (phone_number : Z)
         (password : string)
| Update (id : Z) (a : Assign).

Record World := mkWorld {
  rows : list User.t;          (* committed rows, in insertion order *)
  next_id : Z;                 (* next primary key handed out *)
  open_sessions : nat;         (* sessions opened and not closed *)
  pending : list Write;        (* unit of work of the current session *)
  trace : list Event           (* calls made so far *)
}.

(** What a request cannot control: the salt drawn by the hasher, the
    clock readings, and whether the store fails at a call. *)
Record Env := mkEnv {
  salt : string;
  utcnow : Z;                  (* first reading of [datetime.utcnow()],
                                  also the time [jwt.decode] checks against *)
  utcnow2 : Z;                 (* second reading in [forgot_password] *)
  server_now : Z;              (* [func.now()] on the database server *)
  query_fails : bool;
  commit_fails : bool;
  refresh_fails : bool
}.

(* ===================================================================== *)
(** ** The handler monad: state with exceptions that keep the state *)
(* ===================================================================== *)

Inductive Outcome (A : Type) :=
| Return (a : A)
| Raise (e : Exn).
Arguments Return {A} a.
Arguments Raise {A} e.

Definition M (A : Type) : Type := World -> Outcome A * World.

Definition ret {A} (a : A) : M A := fun w => (Return a, w).

Definition raise {A} (e : Exn) : M A := fun w => (Raise e, w).

Definition bind {A B} (c : M A) (k : A -> M B) : M B :=
  fun w =>
    match c w with
    | (Return a, w1) => k a w1
    | (Raise e, w1) => (Raise e, w1)
    end.

(** [try: c  except ... as e: h e] *)
Definition try_except {A} (c : M A) (h : Exn -> M A) : M A :=
  fun w =>
    match c w with
    | (Return a, w1) => (Return a, w1)
    | (Raise e, w1) => h e w1
    end.

(** [try: c  finally: f]: [f] runs on every exit of [c]. *)
Definition try_finally {A} (c : M A) (f : M unit) : M A :=
  fun w =>
    match c w with
    | (o, w1) =>
        match f w1 with
        | (Return _, w2) => (o, w2)
        | (Raise e, w2) => (Raise e, w2)
        end
    end.

Declare Scope handler_scope.
Delimit Scope handler_scope with handler.
Notation "x <- c ;; k" := (bind c (fun x => k))
  (at level 100, c at next level, right associativity) : handler_scope.
Notation "c ;; k" := (bind c (fun _ => k))
  (at level 100, right associativity) : handler_scope.
Local Open Scope handler_scope.

(* ===================================================================== *)
(** ** The session and the store *)
(* ===================================================================== *)

Definition log (ev : Event) (w : World) : World :=
  mkWorld (rows w) (next_id w) (open_sessions w) (pending w) (trace w ++ [ev]).

Definition with_pending (p : list Write) (w : World) : World :=
  mkWorld (rows w) (next_id w) (open_sessions w) p (trace w).

Definition assign (a : Assign) (u : User.t) : User.t :=
  match a with
  | SetPassword v =>
      User.mk (User.id u) (User.first_name u) (User.last_name u) (User.email u)
        (User.phone_number u) v (User.created_at u)
        (User.reset_token u) (User.reset_token_expires u)
  | SetResetToken v =>
      User.mk (User.id u) (User.first_name u) (User.last_name u) (User.email u)
        (User.phone_number u) (User.password u) (User.created_at u)
        v (User.reset_token_expires u)
  | SetResetTokenExpires v =>
      User.mk (User.id u) (User.first_name u) (User.last_name u) (User.email u)
        (User.phone_number u) (User.password u) (User.created_at u)
        (User.reset_token u) v
  end.

(** One write of a flush.  An inserted row gets the next primary key,
    the server's time as [created_at] and null reset columns. *)
Definition apply_write (now : Z) (st : list User.t * Z) (wr : Write)
  : list User.t * Z :=
  let (rs, n) := st in
  match wr with
  | Insert fn ln em ph pw =>
      (rs ++ [User.mk n fn ln em ph pw now None None], n + 1)
  | Update i a =>
      (map (fun r => if User.id r =? i then assign a r else r) rs, n)
  end.

Definition flush (now : Z) (ws : list Write) (st : list User.t * Z)
  : list User.t * Z :=
  fold_left (apply_write now) ws st.

(** [db = SessionLocal()] *)
Definition SessionLocal : M unit := fun w =>
  (Return tt,
   mkWorld (rows w) (next_id w) (S (open_sessions w)) []
           (trace w ++ [EvSessionLocal])).

(** [db.query(User).filter(p).first()]: the first row, in insertion
    order, that passes the filter; reads see committed rows only
    ([autoflush=False]). *)
Definition query_first (env : Env) (p : User.t -> bool) : M (option User.t) :=
  fun w =>
    if query_fails env then (Raise SQLAlchemyError, log EvQuery w)
    else (Return (find p (rows w)), log EvQuery w).

(** [db.add(new_user)] *)
Definition db_add (wr : Write) : M unit := fun w =>
  (Return tt, log EvAdd (with_pending (pending w ++ [wr]) w)).

(** [user.attr = v] on a row loaded in the session *)
Definition setattr (u : User.t) (a : Assign) : M unit := fun w =>
  (Return tt,
   log EvSetAttr (with_pending (pending w ++ [Update (User.id u) a]) w)).

(** [db.commit()]: all pending writes or none. *)
Definition db_commit (env : Env) : M unit := fun w =>
  if commit_fails env then (Raise SQLAlchemyError, log EvCommit w)
  else
    let (rs, n) := flush (server_now env) (pending w) (rows w, next_id w) in
    (Return tt,
     mkWorld rs n (open_sessions w) [] (trace w ++ [EvCommit])).

(** [db.refresh(new_user)] *)
Definition db_refresh (env : Env) : M unit := fun w =>
  if refresh_fails env then (Raise SQLAlchemyError, log EvRefresh w)
  else (Return tt, log EvRefresh w).

(** [db.rollback()] *)
Definition db_rollback : M unit := fun w =>
  (Return tt, log EvRollback (with_pending [] w)).

(** [db.close()] *)
Definition db_close : M unit := fun w =>
  (Return tt,
   mkWorld (rows w) (next_id w) (Nat.pred (open_sessions w)) []
           (trace w ++ [EvClose])).

(** [background_tasks.add_task(fm.send_message, message)] *)
Definition add_task (recipient body : string) : M unit := fun w =>
  (Return tt, log (EvAddTask recipient body) w).

(* ===================================================================== *)
(** ** Request validation *)
(* ===================================================================== *)

Definition is_digit (c : ascii) : bool :=
  ((48 <=? nat_of_ascii c) && (nat_of_ascii c <=? 57))%nat.

(** [str.isdigit()]: every character a digit, and at least one. *)
Definition isdigit (v : string) : bool :=
  match v with
  | EmptyString => false
  | _ => forallb is_digit (list_ascii_of_string v)
  end.

(** [len(v)] *)
Definition len (v : string) : Z := Z.of_nat (String.length v).

(** [int(v)] on a string of decimal digits. *)
Definition int (v : string) : Z :=
  fold_left (fun acc c => 10 * acc + (Z.of_nat (nat_of_ascii c) - 48))
            (list_ascii_of_string v) 0.

(** [UserCreate.validate_phone_number]: [None] is the [ValueError]. *)
Definition validate_phone_number (v : string) : option Z :=
  if negb (isdigit v) || negb ((10 <=? len v) && (len v <=? 15))
  then None
  else Some (int v).

(** HTTP status the framework answers with. *)
Definition status {A} (o : Outcome A) : Z :=
  match o with
  | Return _ => 200
  | Raise (HTTPException s _) => s
  | Raise RequestValidationError => 422
  | Raise _ => 500
  end.

(** The filter of [register]:
    [(User.email == user.email) | (User.phone_number == int(user.phone_number))] *)
Definition email_or_phone_taken (user : UserCreate.t) (u : User.t) : bool :=
  String.eqb (User.email u) (UserCreate.email user)
  || (User.phone_number u =? UserCreate.phone_number user).

(** The row [register] hands to the store, as the store writes it. *)
Definition new_row (n now : Z) (user : UserCreate.t) (hashed : string)
  : User.t :=
  User.mk n (UserCreate.first_name user) (UserCreate.last_name user)
    (UserCreate.email user) (UserCreate.phone_number user) hashed now
    None None.

Definition find_by_email (rs : list User.t) (e : string) : option User.t :=
  find (fun u => String.eqb (User.email u) e) rs.

Section Service.

(** [pwd_context = CryptContext(schemes=["bcrypt"])]: hashing draws a
    salt, verification is a boolean; [None] is the exception either one
    raises on a password it refuses. *)
Context (pwd_hash : string -> string -> option string)
        (pwd_verify : string -> string -> option bool).
(** [jwt.encode(payload, key, algorithm="HS256")] and
    [jwt.decode(token, key, algorithms=["HS256"])] at a given time. *)
Context (jwt_encode : string -> Payload -> string)
        (jwt_decode : string -> Z -> string -> Decoded).
(** pydantic's [EmailStr]: [None] when the string is not an address,
    otherwise the address as pydantic hands it on. *)
Context (EmailStr : string -> option string).
(** [os.getenv("SECRET_KEY")] *)
Context (SECRET_KEY : string).

(** Validation of a body as [UserCreate]: the three [str] fields are
    taken as they are. *)
Definition UserCreate_validate (b : Body.t) : option UserCreate.t :=
  match EmailStr (Body.email b), validate_phone_number (Body.phone_number b) with
  | Some e, Some ph =>
      Some (UserCreate.mk (Body.first_name b) (Body.last_name b) e ph
                          (Body.password b))
  | _, _ => None
  end.

Definition hash (env : Env) (plain : string) : M string := fun w =>
  match pwd_hash (salt env) plain with
  | Some hashed => (Return hashed, log EvHash w)
  | None => (Raise PasswordValueError, log EvHash w)
  end.

Definition verify (plain hashed : string) : M bool := fun w =>
  match pwd_verify plain hashed with
  | Some ok => (Return ok, log EvVerify w)
  | None => (Raise PasswordValueError, log EvVerify w)
  end.

Definition encode (p : Payload) : M string := fun w =>
  (Return (jwt_encode SECRET_KEY p), log EvJwtEncode w).

Definition decode (env : Env) (token : string) : M Payload := fun w =>
  match jwt_decode SECRET_KEY (utcnow env) token with
  | Claims p => (Return p, log EvJwtDecode w)
  | Expired => (Raise ExpiredSignatureError, log EvJwtDecode w)
  | Invalid => (Raise InvalidTokenError, log EvJwtDecode w)
  end.

(** [def register(user: UserCreate)] *)
Definition register (env : Env) (user : UserCreate.t) : M string :=
  SessionLocal ;;
  hashed_password <- hash env (UserCreate.password user) ;;
  try_finally
    (try_except
       (existing <- query_first env (email_or_phone_taken user) ;;
        match existing with
        | Some _ =>
            raise (HTTPException 400 "Email or Phone Number already registered")
        | None =>
            db_add (Insert (UserCreate.first_name user)
                           (UserCreate.last_name user)
                           (UserCreate.email user)
                           (UserCreate.phone_number user)
                           hashed_password) ;;
            db_commit env ;;
            db_refresh env ;;
            ret "User registered successfully"
        end)
       (fun e =>
          match e with
          | HTTPException _ _ => raise e
          | _ =>
              db_rollback ;;
              raise (HTTPException 500 "An error occurred during registration.")
          end))
    db_close.

(** [POST /register]: the body is validated before the handler runs. *)
Definition post_register (env : Env) (b : Body.t) : M string :=
  match UserCreate_validate b with
  | None => raise RequestValidationError
  | Some user => register env user
  end.

(** [def login(email: EmailStr, password: str)] *)
Definition login (env : Env) (email password : string) : M string :=
  SessionLocal ;;
  user <- query_first env (fun u => String.eqb (User.email u) email) ;;
  match user with
  | None =>
      db_close ;;
      raise (HTTPException 400 "Email not found")
  | Some u =>
      ok <- verify password (User.password u) ;;
      if negb ok then
        db_close ;;
        raise (HTTPException 400 "Invalid password")
      else
        db_close ;;
        ret "Login successful"
  end.

(** [async def forgot_password(email: EmailStr, background_tasks)] *)
Definition forgot_password (env : Env) (email : string) : M string :=
  SessionLocal ;;
  user <- query_first env (fun u => String.eqb (User.email u) email) ;;
  match user with
  | None =>
      db_close ;;
      raise (HTTPException 404 "Email not found")
  | Some u =>
      token <- encode (mkPayload (Some (User.email u)) (utcnow env + 3600)) ;;
      setattr u (SetResetToken (Some token)) ;;
      setattr u (SetResetTokenExpires (Some (utcnow2 env + 3600))) ;;
      db_commit env ;;
      add_task (User.email u)
        ("Your password reset link: http://yourfrontend.com/reset-password?token="
           ++ token)%string ;;
      db_close ;;
      ret "Password reset email sent"
  end.

(** [def reset_password(token: str, new_password: str)].  A token
    without an email claim gives [email = None], and the filter
    [User.email == None] selects no row. *)
Definition reset_password (env : Env) (token new_password : string) : M string :=
  SessionLocal ;;
  try_finally
    (try_except
       (payload <- decode env token ;;
        let email := payload_email payload in
        user <- query_first env (fun u =>
            match email with
            | Some e => String.eqb (User.email u) e
            | None => false
            end) ;;
        match user with
        | None => raise (HTTPException 400 "Invalid token")
        | Some u =>
            hashed_password <- hash env new_password ;;
            setattr u (SetPassword hashed_password) ;;
            db_commit env ;;
            ret "Password reset successfully"
        end)
       (fun e =>
          match e with
          | ExpiredSignatureError =>
              raise (HTTPException 400 "Token has expired")
          | InvalidTokenError =>
              raise (HTTPException 400 "Invalid token")
          | _ => raise e
          end))
    db_close.

End Service.

(* ===================================================================== *)
(** ** Operations and reachable worlds *)
(* ===================================================================== *)

(** A request to one of the four stateful endpoints. *)
Inductive Op :=
| OpRegister (env : Env) (b : Body.t)
| OpLogin (env : Env) (email password : string)
| OpForgotPassword (env : Env) (email : string)
| OpResetPassword (env : Env) (token new_password : string).

Definition init_world : World := mkWorld [] 1 0 [] [].

(** When no account has a reset pending, both reset columns are null;
    otherwise both are set. *)
Definition reset_fields_agree (u : User.t) : Prop :=
  User.reset_token u = None <-> User.reset_token_expires u = None.

Definition reset_invariant (w : World) : Prop :=
  Forall reset_fields_agree (rows w).

(** The events a computation adds to the trace of [w]. *)
Definition events {A} (c : M A) (w : World) : list Event :=
  skipn (length (trace w)) (trace (snd (c w))).

(** [a] occurs in [l] and no [b] occurs before that occurrence. *)
Fixpoint precedes (a b : Event) (l : list Event) : bool :=
  match l with
  | [] => false
  | x :: l' =>
      if Event_eqb x a then true
      else if Event_eqb x b then false
      else precedes a b l'
  end.

(** The row [u] with its two reset columns replaced by what [g] gives
    for its primary key, and a world with its rows replaced. *)
Definition with_reset_fields (g : Z -> option string * option Z)
  (u : User.t) : User.t :=
  User.mk (User.id u) (User.first_name u) (User.last_name u) (User.email u)
    (User.phone_number u) (User.password u) (User.created_at u)
    (fst (g (User.id u))) (snd (g (User.id u))).

Definition with_rows (rs : list User.t) (w : World) : World :=
  mkWorld rs (next_id w) (open_sessions w) (pending w) (trace w).

Section Reachable.

Context (pwd_hash : string -> string -> option string)
        (pwd_verify : string -> string -> option bool)
        (jwt_encode : string -> Payload -> string)
        (jwt_decode : string -> Z -> string -> Decoded)
        (EmailStr : string -> option string)
        (SECRET_KEY : string).

(** Serving one request. *)
Definition exec (op : Op) : M string :=
  match op with
  | OpRegister env b => post_register pwd_hash EmailStr env b
  | OpLogin env e p => login pwd_verify env e p
  | OpForgotPassword env e => forgot_password jwt_encode SECRET_KEY env e
  | OpResetPassword env t p =>
      reset_password pwd_hash jwt_decode SECRET_KEY env t p
  end.

(** The worlds the service can be in: the empty table, and what any
    request, under any environment, makes of a reachable world. *)
Inductive reachable : World -> Prop :=
| reach_init : reachable init_world
| reach_step op w : reachable w -> reachable (snd (exec op w)).

End Reachable.

(** The columns of an account that no handler assigns after the insert. *)
Definition account_key (u : User.t) : Z * string * string * string * Z * Z :=
  (User.id u, User.first_name u, User.last_name u, User.email u,
   User.phone_number u, User.created_at u).

(** What the primary key and the two [unique=True] columns promise. *)
Definition unique_keys (w : World) : Prop :=
  NoDup (map User.id (rows w))
  /\ NoDup (map User.email (rows w))
  /\ NoDup (map User.phone_number (rows w))
  /\ Forall (fun u => User.id u < next_id w) (rows w).

(** The environment a request is served under. *)
Definition op_env (op : Op) : Env :=
  match op with
  | OpRegister env _ => env
  | OpLogin env _ _ => env
  | OpForgotPassword env _ => env
  | OpResetPassword env _ _ => env
  end.

(** The body of the mail [forgot_password] hands to the mailer. *)
Definition reset_link (token : string) : string :=
  ("Your password reset link: http://yourfrontend.com/reset-password?token="
     ++ token)%string.

(** Every stored password is the output of the hasher. *)
Definition passwords_hashed (pwd_hash : string -> string -> option string)
  (w : World) : Prop :=
  Forall (fun u => exists s p, pwd_hash s p = Some (User.password u))
         (rows w).

(** Every stored reset token was signed for the email of its own row. *)
Definition tokens_issued (jwt_encode : string -> Payload -> string)
  (key : string) (w : World) : Prop :=
  Forall (fun u => forall t, User.reset_token u = Some t ->
            exists exp,
              t = jwt_encode key (mkPayload (Some (User.email u)) exp))
         (rows w).

(* ===================================================================== *)
(** ** A small concrete instance of the three libraries

    The handlers are parametric in the hasher, the token codec and the
    address validator.  This instance is only there to run the handlers on
    concrete requests; nothing is assumed about the real libraries
    beyond what each theorem states. *)
(* ===================================================================== *)

Module Toy.

(** A password with a NUL byte is refused. *)
Fixpoint has_nul (s : string) : bool :=
  match s with
  | EmptyString => false
  | String c s' => Ascii.eqb c zero || has_nul s'
  end.

Definition pwd_hash (salt plain : string) : option string :=
  if has_nul plain then None else Some ("$2b$" ++ plain)%string.

Definition pwd_verify (plain hashed : string) : option bool :=
  if has_nul plain then None
  else Some (String.eqb hashed ("$2b$" ++ plain)%string).

(** Splits at the first bar. *)
Fixpoint split_bar (s : string) : option (string * string) :=
  match s with
  | EmptyString => None
  | String c s' =>
      if Ascii.eqb c "|"%char then Some (EmptyString, s')
      else match split_bar s' with
           | Some (a, b) => Some (String c a, b)
           | None => None
           end
  end.

Definition digits (z : Z) : string :=
  DecimalString.NilZero.string_of_uint (N.to_uint (Z.to_N z)).

(** A token is [key|exp|email]. *)
Definition jwt_encode (key : string) (p : Payload) : string :=
  (key ++ "|" ++ digits (payload_exp p) ++ "|"
       ++ match payload_email p with Some e => e | None => "" end)%string.

Definition jwt_decode (key : string) (now : Z) (token : string) : Decoded :=
  match split_bar token with
  | Some (k, rest) =>
      if String.eqb k key then
        match split_bar rest with
        | Some (ex, em) =>
            if isdigit ex then
              if int ex <=? now then Expired
              else Claims (mkPayload (Some em) (int ex))
            else Invalid
        | None => Invalid
        end
      else Invalid
  | None => Invalid
  end.

Fixpoint has_at (s : string) : bool :=
  match s with
  | EmptyString => false
  | String c s' => Ascii.eqb c "@"%char || has_at s'
  end.

Definition EmailStr (s : string) : option string :=
  if has_at s then Some s else None.

Definition SECRET_KEY : string := "secret".

Definition register := register pwd_hash.
Definition post_register := post_register pwd_hash EmailStr.
Definition login := login pwd_verify.
Definition forgot_password := forgot_password jwt_encode SECRET_KEY.
Definition reset_password := reset_password pwd_hash jwt_decode SECRET_KEY.

(** A quiet environment: clock at [t], no store failure. *)
Definition env_at (t : Z) : Env := mkEnv "salt" t t t false false false.

(** The same, with a store whose [commit] raises. *)
Definition env_commit_fails (t : Z) : Env :=
  mkEnv "salt" t t t false true false.

Definition exec :=
  exec pwd_hash pwd_verify jwt_encode jwt_decode EmailStr SECRET_KEY.
Definition reachable :=
  reachable pwd_hash pwd_verify jwt_encode jwt_decode EmailStr SECRET_KEY.

Definition alice : Body.t :=
  Body.mk "Alice" "Liddell" "a@x.com" "1234567890" "p1".

(** A body with empty names and an empty password, and one with a
    phone number of five digits. *)
Definition nameless : Body.t :=
  Body.mk "" "" "b@x.com" "1234567891" "".
Definition short_phone : Body.t :=
  Body.mk "Bob" "Hatter" "b@x.com" "12345" "p2".

(** Alice registered at time 100 ... *)
Definition w_alice : World :=
  snd (exec (OpRegister (env_at 100) alice) init_world).

(** ... and asked for a reset at time 200: the token expires at 3800. *)
Definition w_forgot : World :=
  snd (exec (OpForgotPassword (env_at 200) "a@x.com") w_alice).

Definition alice_token : string := "secret|3800|a@x.com".

(** A password the hasher refuses: [p1] followed by a NUL byte. *)
Definition nul_password : string :=
  String "p" (String "1" (String zero EmptyString)).

(** Bob registers after Alice asked for her reset: two accounts. *)
Definition bob : Body.t :=
  Body.mk "Bob" "Hatter" "b@x.com" "9876543210" "p2".
Definition bob_row : User.t :=
  User.mk 2 "Bob" "Hatter" "b@x.com" 9876543210 "$2b$p2" 250 None None.
Definition w_two : World :=
  snd (exec (OpRegister (env_at 250) bob) w_forgot).

(** A store whose [refresh] raises. *)
Definition env_refresh_fails (t : Z) : Env :=
  mkEnv "salt" t t t false false true.

(** Alice's body after validation, and her row once registered. *)
Definition alice_user : UserCreate.t :=
  UserCreate.mk "Alice" "Liddell" "a@x.com" 1234567890 "p1".
Definition alice_row : User.t :=
  User.mk 1 "Alice" "Liddell" "a@x.com" 1234567890 "$2b$p1" 100 None None.

(** Carol has Alice's phone number; Bob has it behind a zero. *)
Definition carol_user : UserCreate.t :=
  UserCreate.mk "Carol" "Dodo" "c@x.com" 1234567890 "p3".
Definition bob_zero : Body.t :=
  Body.mk "Bob" "Hatter" "b@x.com" "01234567890" "p2".

End Toy.

(* ===================================================================== *)
(** ** Tactics *)
(* ===================================================================== *)

(** Unfolds a handler down to the world it returns. *)
Ltac run_handler :=
  unfold post_register, register, login, forgot_password, reset_password,
    events, bind, try_finally, try_except, ret, raise,
    SessionLocal, query_first, db_add, setattr, db_commit, db_refresh,
    db_rollback, db_close, add_task, hash, verify, encode, decode,
    flush, log, with_pending;
  cbn [fst snd rows next_id open_sessions pending trace fold_left
       apply_write app].

Ltac case_flag f :=
  destruct f eqn:?; cbn [fst snd rows next_id open_sessions pending trace
                         fold_left apply_write app negb].

(** Closes a goal that supposes an event in a list that lacks it. *)
Ltac no_such_event :=
  let H := fresh "H" in
  cbn; intros H;
  repeat (destruct H as [H|H]; try discriminate H);
  contradiction.

Ltac unfold_post_register := unfold post_register in *.

Ltac unfold_exec := unfold exec in *.

(** Unfolds the endpoint down to the handler. *)
Ltac unfold_endpoint :=
  unfold post_register, UserCreate_validate in *.

(* ===================================================================== *)
(** ** Facts about rows and writes *)
(* ===================================================================== *)

Lemma assign_email a u : User.email (assign a u) = User.email u.
Proof. destruct a; reflexivity. Qed.

Lemma assign_id a u : User.id (assign a u) = User.id u.
Proof. destruct a; reflexivity. Qed.

(** Updating the row that a lookup by email returned leaves it the row
    that a lookup by the same email returns. *)
Lemma find_by_email_update a rs e u :
  find_by_email rs e = Some u ->
  find_by_email
    (map (fun r => if User.id r =? User.id u then assign a r else r) rs) e
  = Some (assign a u).
Proof.
  unfold find_by_email.
  induction rs as [|r rs IH]; simpl; [discriminate|].
  destruct (String.eqb (User.email r) e) eqn:Er.
  - intros [= ->]. rewrite Z.eqb_refl, assign_email, Er. reflexivity.
  - intros H. specialize (IH H).
    destruct (User.id r =? User.id u);
      rewrite ?assign_email, Er; exact IH.
Qed.

Lemma find_app_none {A} (p : A -> bool) l1 l2 :
  find p l1 = None -> find p (l1 ++ l2) = find p l2.
Proof.
  induction l1 as [|x l1 IH]; simpl; [reflexivity|].
  destruct (p x); [discriminate | exact IH].
Qed.

Lemma find_none_of_all {A} (p : A -> bool) l :
  (forall x, In x l -> p x = false) -> find p l = None.
Proof.
  induction l as [|x l IH]; simpl; intros H; [reflexivity|].
  rewrite (H x) by auto. apply IH. auto.
Qed.

Lemma find_some_of_In {A} (p : A -> bool) l x :
  In x l -> p x = true -> exists y, find p l = Some y.
Proof.
  induction l as [|a l IH]; simpl; [tauto|].
  intros [->|Hin] Hp.
  - rewrite Hp. eauto.
  - destruct (p a); eauto.
Qed.

Lemma find_with_reset_fields g (em : option string) rs :
  find (fun u => match em with
                 | Some e => String.eqb (User.email u) e
                 | None => false
                 end) (map (with_reset_fields g) rs)
  = option_map (with_reset_fields g)
      (find (fun u => match em with
                      | Some e => String.eqb (User.email u) e
                      | None => false
                      end) rs).
Proof.
  induction rs as [|r rs IH]; simpl; [reflexivity|].
  destruct em as [e|]; [|exact IH].
  destruct (String.eqb (User.email r) e); [reflexivity | exact IH].
Qed.

Lemma set_password_with_reset_fields g v u rs :
  map (fun r => if User.id r =? User.id (with_reset_fields g u)
                then assign (SetPassword v) r else r)
      (map (with_reset_fields g) rs)
  = map (with_reset_fields g)
      (map (fun r => if User.id r =? User.id u
                     then assign (SetPassword v) r else r) rs).
Proof.
  rewrite !map_map. apply map_ext. intros r. simpl.
  destruct (User.id r =? User.id u); reflexivity.
Qed.

Lemma skipn_length_app {A} (l1 l2 : list A) :
  skipn (length l1) (l1 ++ l2) = l2.
Proof. induction l1; simpl; auto. Qed.

Lemma reset_fields_agree_assign_password v u :
  reset_fields_agree u -> reset_fields_agree (assign (SetPassword v) u).
Proof. unfold reset_fields_agree. simpl. trivial. Qed.

(** [forgot_password] writes both reset columns of the same rows. *)
Lemma reset_invariant_set_both i t x rs :
  Forall reset_fields_agree rs ->
  Forall reset_fields_agree
    (map (fun r => if User.id r =? i
                   then assign (SetResetTokenExpires (Some x)) r else r)
       (map (fun r => if User.id r =? i
                      then assign (SetResetToken (Some t)) r else r) rs)).
Proof.
  intros H. rewrite map_map. apply Forall_map.
  eapply Forall_impl; [|exact H].
  intros r Hr. destruct (User.id r =? i) eqn:E.
  - rewrite assign_id, E. unfold reset_fields_agree. simpl.
    split; discriminate.
  - rewrite E. exact Hr.
Qed.

Lemma reset_invariant_set_password i v rs :
  Forall reset_fields_agree rs ->
  Forall reset_fields_agree
    (map (fun r => if User.id r =? i then assign (SetPassword v) r else r) rs).
Proof.
  intros H. apply Forall_map. eapply Forall_impl; [|exact H].
  intros r Hr. destruct (User.id r =? i); [|exact Hr].
  now apply reset_fields_agree_assign_password.
Qed.

Lemma reset_invariant_insert n fn ln em ph pw now rs :
  Forall reset_fields_agree rs ->
  Forall reset_fields_agree (rs ++ [User.mk n fn ln em ph pw now None None]).
Proof.
  intros H. apply Forall_app. split; [exact H|].
  constructor; [|constructor]. unfold reset_fields_agree. simpl. tauto.
Qed.

(* ===================================================================== *)
(** ** Properties of the handlers *)
(* ===================================================================== *)

Section Properties.

Set Default Proof Using "Type".

Context (pwd_hash : string -> string -> option string)
        (pwd_verify : string -> string -> option bool)
        (jwt_encode : string -> Payload -> string)
        (jwt_decode : string -> Z -> string -> Decoded)
        (EmailStr : string -> option string)
        (SECRET_KEY : string).

Local Abbreviation register := (register pwd_hash).
Local Abbreviation post_register := (post_register pwd_hash EmailStr).
Local Abbreviation login := (login pwd_verify).
Local Abbreviation forgot_password := (forgot_password jwt_encode SECRET_KEY).
Local Abbreviation reset_password :=
  (reset_password pwd_hash jwt_decode SECRET_KEY).
Local Abbreviation UserCreate_validate := (UserCreate_validate EmailStr).

(** *** Login *)

(** C8, as the code has it.  [login] answers 400 [Email not found]
    when no account has the email, 400 [Invalid password] when the
    verifier says the password does not match the account's hash, and
    200 when it says it does; when the verifier refuses the password
    and raises, the exception leaves the handler (a 500 for the client)
    with the session still open.  In every case the rows of the table
    are the ones it started from. *)
Theorem login_outcomes_and_no_mutation env e p w :
  query_fails env = false ->
  rows (snd (login env e p w)) = rows w
  /\ (find_by_email (rows w) e = None ->
      fst (login env e p w) = Raise (HTTPException 400 "Email not found")
      /\ status (fst (login env e p w)) = 400)
  /\ (forall u, find_by_email (rows w) e = Some u ->
      pwd_verify p (User.password u) = Some false ->
      fst (login env e p w) = Raise (HTTPException 400 "Invalid password")
      /\ status (fst (login env e p w)) = 400)
  /\ (forall u, find_by_email (rows w) e = Some u ->
      pwd_verify p (User.password u) = Some true ->
      fst (login env e p w) = Return "Login successful"
      /\ status (fst (login env e p w)) = 200)
  /\ (forall u, find_by_email (rows w) e = Some u ->
      pwd_verify p (User.password u) = None ->
      fst (login env e p w) = Raise PasswordValueError
      /\ status (fst (login env e p w)) = 500
      /\ open_sessions (snd (login env e p w)) = S (open_sessions w)).
Proof.
  intros Hq. unfold find_by_email. run_handler. rewrite Hq.
  destruct (find _ (rows w)) as [u|] eqn:Hf; cbn.
  - destruct (pwd_verify p (User.password u)) as [[|]|] eqn:Hv; cbn;
      (split; [reflexivity|]);
      (split; [discriminate|]);
      (split; [|split]); intros u' [= <-] Hv'; rewrite Hv in Hv';
        try discriminate; repeat split; reflexivity.
  - split; [reflexivity|]. split; [split; reflexivity|].
    split; [|split]; discriminate.
Qed.

(** *** Sessions that stay open *)

(** [login] has no [finally]: when the lookup raises, the session it
    opened stays open. *)
Lemma login_query_failure_leaves_session_open env e p w :
  query_fails env = true ->
  login env e p w
  = (Raise SQLAlchemyError,
     mkWorld (rows w) (next_id w) (S (open_sessions w)) []
       (trace w ++ [EvSessionLocal; EvQuery])).
Proof.
  intros Hq. run_handler. rewrite Hq. cbn.
  rewrite <- !app_assoc. reflexivity.
Qed.

(** [forgot_password] has neither [except] nor [finally]: when the
    commit raises, nothing is rolled back, the session stays open and no
    row has changed. *)
Lemma forgot_password_commit_failure env e w u :
  query_fails env = false ->
  find_by_email (rows w) e = Some u ->
  commit_fails env = true ->
  fst (forgot_password env e w) = Raise SQLAlchemyError
  /\ rows (snd (forgot_password env e w)) = rows w
  /\ open_sessions (snd (forgot_password env e w)) = S (open_sessions w)
  /\ events (forgot_password env e) w
     = [EvSessionLocal; EvQuery; EvJwtEncode; EvSetAttr; EvSetAttr; EvCommit].
Proof.
  unfold find_by_email. intros Hq Hf Hc. run_handler.
  rewrite Hq, Hf. cbn. rewrite Hc. cbn.
  repeat split. rewrite <- !app_assoc. apply skipn_length_app.
Qed.

(** *** Reset-password *)

(** The run of [reset_password] on a token that verifies, for an
    account that exists, with a hasher that accepts the new password
    and a store that answers. *)
Lemma reset_password_success env token new_password w p e u h :
  jwt_decode SECRET_KEY (utcnow env) token = Claims p ->
  payload_email p = Some e ->
  find_by_email (rows w) e = Some u ->
  pwd_hash (salt env) new_password = Some h ->
  query_fails env = false ->
  commit_fails env = false ->
  reset_password env token new_password w
  = (Return "Password reset successfully",
     mkWorld
       (map (fun r => if User.id r =? User.id u
                      then assign (SetPassword h) r
                      else r) (rows w))
       (next_id w) (open_sessions w) []
       (trace w ++ [EvSessionLocal; EvJwtDecode; EvQuery; EvHash;
                    EvSetAttr; EvCommit; EvClose])).
Proof.
  intros Hd He Hf Hh Hq Hc. unfold find_by_email in Hf.
  run_handler. rewrite Hd. cbn. rewrite Hq, He. cbn. rewrite Hf. cbn.
  rewrite Hh. cbn. rewrite Hc. cbn. rewrite <- !app_assoc. reflexivity.
Qed.

(** The run of [reset_password] when the hasher refuses the new
    password: the exception passes both [except] clauses, the session is
    closed, nothing is written. *)
Lemma reset_password_hash_refused env token new_password w p e u :
  jwt_decode SECRET_KEY (utcnow env) token = Claims p ->
  payload_email p = Some e ->
  find_by_email (rows w) e = Some u ->
  pwd_hash (salt env) new_password = None ->
  query_fails env = false ->
  reset_password env token new_password w
  = (Raise PasswordValueError,
     mkWorld (rows w) (next_id w) (open_sessions w) []
       (trace w ++ [EvSessionLocal; EvJwtDecode; EvQuery; EvHash; EvClose])).
Proof.
  intros Hd He Hf Hh Hq. unfold find_by_email in Hf.
  run_handler. rewrite Hd. cbn. rewrite Hq, He. cbn. rewrite Hf. cbn.
  rewrite Hh. cbn. rewrite <- !app_assoc. reflexivity.
Qed.

(** A successful [reset_password] went through every step. *)
Lemma reset_password_success_inv env token new_password w m :
  fst (reset_password env token new_password w) = Return m ->
  exists p e u h,
    jwt_decode SECRET_KEY (utcnow env) token = Claims p
    /\ payload_email p = Some e
    /\ find_by_email (rows w) e = Some u
    /\ pwd_hash (salt env) new_password = Some h
    /\ query_fails env = false
    /\ commit_fails env = false.
Proof.
  unfold find_by_email. run_handler.
  destruct (jwt_decode SECRET_KEY (utcnow env) token) as [p| |] eqn:Hd;
    cbn; try discriminate.
  case_flag (query_fails env); try discriminate.
  destruct (payload_email p) as [e|] eqn:He.
  - destruct (find _ (rows w)) as [u|] eqn:Hf; cbn; try discriminate.
    destruct (pwd_hash (salt env) new_password) as [h|] eqn:Hh; cbn;
      try discriminate.
    case_flag (commit_fails env); try discriminate.
    intros _. exists p, e, u, h. auto 10.
  - destruct (find _ (rows w)) as [u|] eqn:Hf; cbn; try discriminate.
    apply find_some in Hf. destruct Hf as [_ Hf]. discriminate.
Qed.

(** The stored reset columns do not reach [reset_password]: replacing
    them in every row changes neither the answer nor what is written. *)
Lemma reset_password_blind g env token new_password w :
  fst (reset_password env token new_password
         (with_rows (map (with_reset_fields g) (rows w)) w))
  = fst (reset_password env token new_password w)
  /\ rows (snd (reset_password env token new_password
                  (with_rows (map (with_reset_fields g) (rows w)) w)))
     = map (with_reset_fields g)
         (rows (snd (reset_password env token new_password w))).
Proof.
  run_handler. unfold with_rows. cbn.
  destruct (jwt_decode SECRET_KEY (utcnow env) token) as [p| |]; cbn;
    try (split; reflexivity).
  case_flag (query_fails env); try (split; reflexivity).
  rewrite find_with_reset_fields.
  destruct (find _ (rows w)) as [u|]; cbn; try (split; reflexivity).
  destruct (pwd_hash (salt env) new_password) as [h|]; cbn;
    try (split; reflexivity).
  case_flag (commit_fails env); try (split; reflexivity).
  split; [reflexivity|].
  apply (set_password_with_reset_fields g _ u).
Qed.

(** C6. [reset_password] decides from the token alone.  Whatever the
    reset columns of the rows hold (null, this token, another one), the
    answer and the write are the same; and a token that verifies, for
    the email of an existing account, with a new password that the
    hasher accepts, sets that account's password to the hash of the new
    one and leaves its reset columns as they were. *)
Theorem reset_password_token_only env token new_password w :
  (forall g,
      fst (reset_password env token new_password
             (with_rows (map (with_reset_fields g) (rows w)) w))
      = fst (reset_password env token new_password w)
      /\ rows (snd (reset_password env token new_password
                      (with_rows (map (with_reset_fields g) (rows w)) w)))
         = map (with_reset_fields g)
             (rows (snd (reset_password env token new_password w))))
  /\ (forall p e u h,
        jwt_decode SECRET_KEY (utcnow env) token = Claims p ->
        payload_email p = Some e ->
        find_by_email (rows w) e = Some u ->
        pwd_hash (salt env) new_password = Some h ->
        query_fails env = false ->
        commit_fails env = false ->
        fst (reset_password env token new_password w)
        = Return "Password reset successfully"
        /\ find_by_email
             (rows (snd (reset_password env token new_password w))) e
           = Some (User.mk (User.id u) (User.first_name u)
                     (User.last_name u) (User.email u)
                     (User.phone_number u) h (User.created_at u)
                     (User.reset_token u) (User.reset_token_expires u))).
Proof.
  split.
  - intros g. apply reset_password_blind.
  - intros p e u h Hd He Hf Hh Hq Hc.
    rewrite (reset_password_success env token new_password w p e u h)
      by assumption.
    cbn [fst snd rows]. split; [reflexivity|].
    now rewrite (find_by_email_update (SetPassword h) (rows w) e u Hf).
Qed.

(** C1, as the code has it.  A reset token is not consumed: when a
    call of [reset_password] has succeeded and the same token still
    verifies as it did, a second call with it, for a new password that
    the hasher accepts, succeeds too and sets the password again. *)
Theorem reset_token_not_consumed env1 env2 token pw1 pw2 w m h2 :
  fst (reset_password env1 token pw1 w) = Return m ->
  jwt_decode SECRET_KEY (utcnow env2) token
  = jwt_decode SECRET_KEY (utcnow env1) token ->
  pwd_hash (salt env2) pw2 = Some h2 ->
  query_fails env2 = false ->
  commit_fails env2 = false ->
  let w1 := snd (reset_password env1 token pw1 w) in
  let w2 := snd (reset_password env2 token pw2 w1) in
  fst (reset_password env2 token pw2 w1)
  = Return "Password reset successfully"
  /\ exists p e u1 u2,
       jwt_decode SECRET_KEY (utcnow env1) token = Claims p
       /\ payload_email p = Some e
       /\ find_by_email (rows w1) e = Some u1
       /\ pwd_hash (salt env1) pw1 = Some (User.password u1)
       /\ find_by_email (rows w2) e = Some u2
       /\ User.password u2 = h2.
Proof.
  intros H1 Hsame Hh2 Hq2 Hc2 w1 w2.
  destruct (reset_password_success_inv _ _ _ _ _ H1)
    as (p & e & u & h1 & Hd & He & Hf & Hh1 & Hq & Hc).
  assert (Hf1 : find_by_email (rows w1) e
                = Some (assign (SetPassword h1) u)).
  { unfold w1.
    rewrite (reset_password_success env1 token pw1 w p e u h1) by assumption.
    cbn [snd rows]. now apply find_by_email_update. }
  rewrite Hd in Hsame.
  assert (Hrun := reset_password_success env2 token pw2 w1 p e _ h2
                    Hsame He Hf1 Hh2 Hq2 Hc2).
  split.
  - rewrite Hrun. reflexivity.
  - exists p, e, (assign (SetPassword h1) u),
      (assign (SetPassword h2) (assign (SetPassword h1) u)).
    split; [exact Hd|]. split; [exact He|]. split; [exact Hf1|].
    split; [exact Hh1|]. split; [|reflexivity].
    unfold w2. rewrite Hrun. cbn [snd rows].
    now apply find_by_email_update.
Qed.

(** *** Register *)

(** The hasher runs before the [try]: when it refuses the password the
    exception leaves [register] at once, with the session open and the
    store not asked. *)
Lemma register_hash_refused env user w :
  pwd_hash (salt env) (UserCreate.password user) = None ->
  register env user w
  = (Raise PasswordValueError,
     mkWorld (rows w) (next_id w) (S (open_sessions w)) []
       (trace w ++ [EvSessionLocal; EvHash])).
Proof.
  intros Hh. run_handler. rewrite Hh. cbn.
  rewrite <- !app_assoc. reflexivity.
Qed.

Lemma register_conflict env user w x h :
  pwd_hash (salt env) (UserCreate.password user) = Some h ->
  query_fails env = false ->
  find (email_or_phone_taken user) (rows w) = Some x ->
  register env user w
  = (Raise (HTTPException 400 "Email or Phone Number already registered"),
     mkWorld (rows w) (next_id w) (open_sessions w) []
       (trace w ++ [EvSessionLocal; EvHash; EvQuery; EvClose])).
Proof.
  intros Hh Hq Hf. run_handler. rewrite Hh. cbn. rewrite Hq, Hf. cbn.
  rewrite <- !app_assoc. reflexivity.
Qed.

Lemma register_inserts env user w h :
  pwd_hash (salt env) (UserCreate.password user) = Some h ->
  query_fails env = false ->
  find (email_or_phone_taken user) (rows w) = None ->
  commit_fails env = false ->
  refresh_fails env = false ->
  register env user w
  = (Return "User registered successfully",
     mkWorld
       (rows w ++ [new_row (next_id w) (server_now env) user h])
       (next_id w + 1) (open_sessions w) []
       (trace w ++ [EvSessionLocal; EvHash; EvQuery; EvAdd; EvCommit;
                    EvRefresh; EvClose])).
Proof.
  intros Hh Hq Hf Hc Hr. run_handler. rewrite Hh. cbn. rewrite Hq, Hf. cbn.
  rewrite Hc. cbn. rewrite Hr. cbn.
  rewrite <- !app_assoc. reflexivity.
Qed.

Lemma register_success_inv env user w m :
  fst (register env user w) = Return m ->
  exists h,
    pwd_hash (salt env) (UserCreate.password user) = Some h
    /\ query_fails env = false
    /\ find (email_or_phone_taken user) (rows w) = None
    /\ commit_fails env = false
    /\ refresh_fails env = false.
Proof.
  run_handler.
  destruct (pwd_hash (salt env) (UserCreate.password user)) as [h|]; cbn;
    try discriminate.
  case_flag (query_fails env); try discriminate.
  destruct (find _ (rows w)); cbn; try discriminate.
  case_flag (commit_fails env); try discriminate.
  case_flag (refresh_fails env); try discriminate.
  exists h. auto.
Qed.

(** The events of one call of [register] whose password the hasher
    accepts, by case. *)
Lemma register_events env user w h :
  pwd_hash (salt env) (UserCreate.password user) = Some h ->
  events (register env user) w
  = [EvSessionLocal; EvHash; EvQuery]
      ++ (if query_fails env then [EvRollback; EvClose]
          else match find (email_or_phone_taken user) (rows w) with
               | Some _ => [EvClose]
               | None =>
                   if commit_fails env
                   then [EvAdd; EvCommit; EvRollback; EvClose]
                   else if refresh_fails env
                        then [EvAdd; EvCommit; EvRefresh; EvRollback; EvClose]
                        else [EvAdd; EvCommit; EvRefresh; EvClose]
               end).
Proof.
  intros Hh. run_handler. rewrite Hh. cbn.
  case_flag (query_fails env).
  { rewrite <- !app_assoc. apply skipn_length_app. }
  destruct (find _ (rows w)); cbn.
  { rewrite <- !app_assoc. apply skipn_length_app. }
  case_flag (commit_fails env).
  { rewrite <- !app_assoc. apply skipn_length_app. }
  case_flag (refresh_fails env);
    rewrite <- !app_assoc; apply skipn_length_app.
Qed.

(** Once the hasher has accepted the password, [register] closes the
    session it opened, whatever the store does. *)
Lemma register_closes_session env user w h :
  pwd_hash (salt env) (UserCreate.password user) = Some h ->
  open_sessions (snd (register env user w)) = open_sessions w.
Proof.
  intros Hh. run_handler. rewrite Hh. cbn.
  case_flag (query_fails env); [reflexivity|].
  destruct (find _ (rows w)); cbn; [reflexivity|].
  case_flag (commit_fails env); [reflexivity|].
  case_flag (refresh_fails env); reflexivity.
Qed.

(** [register] answers 500 only after a rollback. *)
Lemma register_rolls_back env user w d :
  fst (register env user w) = Raise (HTTPException 500 d) ->
  exists pre, events (register env user) w = pre ++ [EvRollback; EvClose].
Proof.
  destruct (pwd_hash (salt env) (UserCreate.password user)) as [h|] eqn:Hh.
  2:{ rewrite (register_hash_refused env user w Hh). discriminate. }
  rewrite (register_events env user w h Hh). run_handler. rewrite Hh. cbn.
  case_flag (query_fails env).
  { intros _. now exists [EvSessionLocal; EvHash; EvQuery]. }
  destruct (find _ (rows w)); cbn; [discriminate|].
  case_flag (commit_fails env).
  { intros _. now exists [EvSessionLocal; EvHash; EvQuery; EvAdd; EvCommit]. }
  case_flag (refresh_fails env); [|discriminate].
  intros _.
  now exists [EvSessionLocal; EvHash; EvQuery; EvAdd; EvCommit; EvRefresh].
Qed.

(** [reset_password] closes the session it opened, whatever happens. *)
Lemma reset_password_closes_session env token new_password w :
  open_sessions (snd (reset_password env token new_password w))
  = open_sessions w.
Proof.
  run_handler.
  destruct (jwt_decode SECRET_KEY (utcnow env) token); cbn;
    try reflexivity.
  case_flag (query_fails env); [reflexivity|].
  destruct (find _ (rows w)); cbn; [|reflexivity].
  destruct (pwd_hash (salt env) new_password); cbn; [|reflexivity].
  case_flag (commit_fails env); reflexivity.
Qed.

(** C5, as the code has it.  [register] hashes the password first; if
    the hasher refuses it, nothing follows the hash.  Otherwise it asks
    the store, once, whether the email or the phone number is taken, and
    then, exactly when the store answered that neither is, adds the row
    and commits: the add and the commit come right after the lookup, and
    the committed table is the old one followed by the new account with
    the hash computed at the start.  When one of them is taken the
    lookup is followed by the close and nothing is written. *)
Theorem register_hashes_then_checks_then_inserts env user w :
  (pwd_hash (salt env) (UserCreate.password user) = None ->
   events (register env user) w = [EvSessionLocal; EvHash]
   /\ rows (snd (register env user w)) = rows w)
  /\ (forall h,
        pwd_hash (salt env) (UserCreate.password user) = Some h ->
        exists rest,
          events (register env user) w
          = EvSessionLocal :: EvHash :: EvQuery :: rest
          /\ ~ In EvHash rest
          /\ ~ In EvQuery rest
          /\ (In EvAdd rest <->
              query_fails env = false
              /\ find (email_or_phone_taken user) (rows w) = None)
          /\ (query_fails env = false ->
              find (email_or_phone_taken user) (rows w) = None ->
              (exists rest',
                  rest = EvAdd :: EvCommit :: rest' /\ ~ In EvAdd rest')
              /\ (commit_fails env = false ->
                  rows (snd (register env user w))
                  = rows w ++ [new_row (next_id w) (server_now env) user h]))
          /\ (query_fails env = false ->
              forall x,
                find (email_or_phone_taken user) (rows w) = Some x ->
                rest = [EvClose]
                /\ rows (snd (register env user w)) = rows w)).
Proof.
  split.
  - intros Hh. unfold events. rewrite (register_hash_refused env user w Hh).
    cbn [snd trace rows]. split; [apply skipn_length_app | reflexivity].
  - intros h Hh. rewrite (register_events env user w h Hh).
    eexists. split; [reflexivity|].
    run_handler. rewrite Hh. cbn.
    case_flag (query_fails env).
    { split; [no_such_event|]. split; [no_such_event|].
      split; [split; [no_such_event | intros [? _]; discriminate]|].
      split; discriminate. }
    destruct (find _ (rows w)) as [x|]; cbn.
    { split; [no_such_event|]. split; [no_such_event|].
      split; [split; [no_such_event | intros [_ ?]; discriminate]|].
      split; [discriminate|]. intros _ x' _. split; reflexivity. }
    case_flag (commit_fails env).
    { split; [no_such_event|]. split; [no_such_event|].
      split; [split; [auto | intros _; cbn; auto]|].
      split; [|discriminate]. intros _ _.
      split; [|discriminate]. eexists. split; [reflexivity|no_such_event]. }
    case_flag (refresh_fails env);
      (split; [no_such_event|]); (split; [no_such_event|]);
      (split; [split; [auto | intros _; cbn; auto]|]);
      (split; [|discriminate]); intros _ _;
      (split; [|reflexivity]); eexists; (split; [reflexivity|no_such_event]).
Qed.

Lemma UserCreate_validate_fields b user :
  UserCreate_validate b = Some user ->
  EmailStr (Body.email b) = Some (UserCreate.email user)
  /\ validate_phone_number (Body.phone_number b)
     = Some (UserCreate.phone_number user)
  /\ UserCreate.first_name user = Body.first_name b
  /\ UserCreate.last_name user = Body.last_name b
  /\ UserCreate.password user = Body.password b.
Proof.
  unfold_endpoint.
  destruct (EmailStr (Body.email b)); [|discriminate].
  destruct (validate_phone_number (Body.phone_number b)); [|discriminate].
  intros [= <-]. cbn. auto.
Qed.

(** C7. A valid registration whose email and phone number are new,
    whose password the hasher accepts, with a store that answers, is
    accepted, and the password column of the stored account holds the
    hash it computed: given a hasher whose hashes verify and differ from
    their plaintext, it is not the plaintext and it verifies the
    plaintext. *)
Theorem register_stores_verifiable_hash env b user w h :
  (forall s p h', pwd_hash s p = Some h' -> pwd_verify p h' = Some true) ->
  (forall s p h', pwd_hash s p = Some h' -> h' <> p) ->
  UserCreate_validate b = Some user ->
  pwd_hash (salt env) (Body.password b) = Some h ->
  (forall u, In u (rows w) ->
             User.email u <> UserCreate.email user
             /\ User.phone_number u <> UserCreate.phone_number user) ->
  query_fails env = false ->
  commit_fails env = false ->
  refresh_fails env = false ->
  fst (post_register env b w) = Return "User registered successfully"
  /\ exists u,
       find_by_email (rows (snd (post_register env b w)))
         (UserCreate.email user) = Some u
       /\ User.password u = h
       /\ User.password u <> Body.password b
       /\ pwd_verify (Body.password b) (User.password u) = Some true.
Proof.
  intros Hver Hneq Hval Hh Huniq Hq Hc Hr.
  destruct (UserCreate_validate_fields _ _ Hval) as (_ & _ & _ & _ & Hpw).
  assert (Hnone : find (email_or_phone_taken user) (rows w) = None).
  { apply find_none_of_all. intros u Hu.
    destruct (Huniq u Hu) as [He Hp]. unfold email_or_phone_taken.
    apply orb_false_iff. split.
    - now apply String.eqb_neq.
    - now apply Z.eqb_neq. }
  assert (Hnone' : find (fun u => String.eqb (User.email u)
                                    (UserCreate.email user)) (rows w) = None).
  { apply find_none_of_all. intros u Hu.
    destruct (Huniq u Hu) as [He _]. now apply String.eqb_neq. }
  assert (Hh' : pwd_hash (salt env) (UserCreate.password user) = Some h)
    by now rewrite Hpw.
  unfold_post_register. rewrite Hval.
  rewrite (register_inserts env user w h Hh' Hq Hnone Hc Hr).
  cbn [fst snd rows]. split; [reflexivity|].
  eexists. split.
  - unfold find_by_email. rewrite (find_app_none _ _ _ Hnone').
    cbn. rewrite String.eqb_refl. reflexivity.
  - cbn. split; [reflexivity|]. split.
    + exact (Hneq _ _ _ Hh).
    + exact (Hver _ _ _ Hh).
Qed.

(** C10. After a registration that succeeded, a second registration
    with the same email, whose password the hasher accepts, is refused
    with 400 and leaves every row, the first account among them, as it
    was. *)
Theorem register_same_email_twice env1 env2 b1 b2 user2 w m h2 :
  fst (post_register env1 b1 w) = Return m ->
  Body.email b2 = Body.email b1 ->
  UserCreate_validate b2 = Some user2 ->
  pwd_hash (salt env2) (Body.password b2) = Some h2 ->
  query_fails env2 = false ->
  let w1 := snd (post_register env1 b1 w) in
  fst (post_register env2 b2 w1)
  = Raise (HTTPException 400 "Email or Phone Number already registered")
  /\ status (fst (post_register env2 b2 w1)) = 400
  /\ rows (snd (post_register env2 b2 w1)) = rows w1
  /\ exists u, In u (rows w1) /\ User.email u = UserCreate.email user2
               /\ ~ In u (rows w).
Proof.
  intros H1 Hsame Hval2 Hh2 Hq2 w1. subst w1.
  unfold_post_register.
  destruct (UserCreate_validate b1) as [user1|] eqn:Hval1;
    [|discriminate].
  destruct (register_success_inv _ _ _ _ H1) as (h1 & Hh1 & Hq & Hf & Hc & Hr).
  rewrite (register_inserts env1 user1 w h1 Hh1 Hq Hf Hc Hr).
  cbn [snd rows]. rewrite Hval2.
  destruct (UserCreate_validate_fields _ _ Hval1) as (He1 & _).
  destruct (UserCreate_validate_fields _ _ Hval2) as (He2 & _ & _ & _ & Hpw2).
  rewrite Hsame, He1 in He2. injection He2 as He2.
  rewrite <- Hpw2 in Hh2.
  set (u1 := new_row (next_id w) (server_now env1) user1 h1).
  set (w1 := mkWorld _ _ _ _ _).
  assert (Hin : In u1 (rows w1)).
  { cbn. apply in_or_app. right. now left. }
  assert (Htaken : email_or_phone_taken user2 u1 = true).
  { unfold email_or_phone_taken, u1. cbn. rewrite He2.
    now rewrite String.eqb_refl. }
  destruct (find_some_of_In _ _ _ Hin Htaken) as [x Hx].
  rewrite (register_conflict env2 user2 w1 x h2 Hh2 Hq2 Hx).
  cbn [fst snd rows status].
  repeat split.
  exists u1. repeat split.
  - exact Hin.
  - cbn. now rewrite He2.
  - intros Hold. pose proof (find_none _ _ Hf _ Hold) as Hno.
    unfold email_or_phone_taken, u1 in Hno. cbn in Hno.
    now rewrite String.eqb_refl in Hno.
Qed.

(** C4, as the code has it.  A body whose email is not an address, or
    whose phone number is not a string of 10 to 15 digits, is refused
    by validation and the handler does not run: no session, no call to
    the store, the world untouched.  Any other body reaches the handler
    with its names and password as they are, empty or not. *)
Theorem register_validates_email_and_phone env b w :
  ((EmailStr (Body.email b) = None
    \/ isdigit (Body.phone_number b) = false
    \/ len (Body.phone_number b) < 10
    \/ 15 < len (Body.phone_number b)) ->
   post_register env b w = (Raise RequestValidationError, w))
  /\ (forall e,
        EmailStr (Body.email b) = Some e ->
        isdigit (Body.phone_number b) = true ->
        10 <= len (Body.phone_number b) <= 15 ->
        post_register env b w
        = register env
            (UserCreate.mk (Body.first_name b) (Body.last_name b) e
               (int (Body.phone_number b)) (Body.password b)) w).
Proof.
  unfold_endpoint. unfold validate_phone_number.
  split.
  - intros H. destruct (EmailStr (Body.email b)); [|reflexivity].
    destruct H as [H|[H|[H|H]]]; [discriminate| | |].
    + rewrite H. reflexivity.
    + apply Z.leb_gt in H. rewrite H, andb_false_l, orb_true_r.
      reflexivity.
    + apply Z.leb_gt in H. rewrite H, andb_false_r, orb_true_r.
      reflexivity.
  - intros e He Hd [Hlo Hhi]. rewrite He, Hd.
    apply Z.leb_le in Hlo, Hhi. rewrite Hlo, Hhi. reflexivity.
Qed.

(** *** The reset columns *)

Local Abbreviation exec :=
  (exec pwd_hash pwd_verify jwt_encode jwt_decode EmailStr SECRET_KEY).
Local Abbreviation reachable :=
  (reachable pwd_hash pwd_verify jwt_encode jwt_decode EmailStr SECRET_KEY).

Lemma register_preserves_reset_invariant env user w :
  reset_invariant w -> reset_invariant (snd (register env user w)).
Proof.
  unfold reset_invariant. intros H. run_handler.
  destruct (pwd_hash (salt env) (UserCreate.password user)); cbn;
    [|exact H].
  case_flag (query_fails env); [exact H|].
  destruct (find _ (rows w)); cbn; [exact H|].
  case_flag (commit_fails env); [exact H|].
  case_flag (refresh_fails env);
    now apply reset_invariant_insert.
Qed.

Lemma login_preserves_rows env e p w :
  rows (snd (login env e p w)) = rows w.
Proof.
  run_handler.
  case_flag (query_fails env); [reflexivity|].
  destruct (find _ (rows w)) as [u|]; cbn; [|reflexivity].
  destruct (pwd_verify p (User.password u)) as [[|]|]; reflexivity.
Qed.

Lemma forgot_password_preserves_reset_invariant env e w :
  reset_invariant w -> reset_invariant (snd (forgot_password env e w)).
Proof.
  unfold reset_invariant. intros H. run_handler.
  case_flag (query_fails env); [exact H|].
  destruct (find _ (rows w)) as [u|]; cbn; [|exact H].
  case_flag (commit_fails env); [exact H|].
  now apply reset_invariant_set_both.
Qed.

Lemma reset_password_preserves_reset_invariant env t p w :
  reset_invariant w -> reset_invariant (snd (reset_password env t p w)).
Proof.
  unfold reset_invariant. intros H. run_handler.
  destruct (jwt_decode SECRET_KEY (utcnow env) t); cbn; try exact H.
  case_flag (query_fails env); [exact H|].
  destruct (find _ (rows w)) as [u|]; cbn; [|exact H].
  destruct (pwd_hash (salt env) p); cbn; [|exact H].
  case_flag (commit_fails env); [exact H|].
  now apply reset_invariant_set_password.
Qed.

Lemma exec_preserves_reset_invariant op w :
  reset_invariant w -> reset_invariant (snd (exec op w)).
Proof.
  intros H. destruct op as [env b|env e p|env e|env t p]; unfold_exec.
  - unfold_post_register.
    destruct (UserCreate_validate b) as [user|]; [|exact H].
    now apply register_preserves_reset_invariant.
  - unfold reset_invariant. now rewrite login_preserves_rows.
  - now apply forgot_password_preserves_reset_invariant.
  - now apply reset_password_preserves_reset_invariant.
Qed.

(** C9. In every world the service can reach from the empty table,
    each account has its reset token and its expiry both set or both
    null; and each request, to any of the four endpoints and under any
    environment, keeps it so. *)
Theorem reset_fields_both_or_neither :
  (forall w, reachable w ->
     forall u, In u (rows w) ->
       (User.reset_token u = None <-> User.reset_token_expires u = None))
  /\ (forall op w, reset_invariant w -> reset_invariant (snd (exec op w))).
Proof.
  split; [|exact exec_preserves_reset_invariant].
  intros w Hw.
  assert (Hinv : reset_invariant w).
  { induction Hw as [|op w Hw IH].
    - constructor.
    - now apply exec_preserves_reset_invariant. }
  intros u Hu. unfold reset_invariant in Hinv.
  rewrite Forall_forall in Hinv. exact (Hinv u Hu).
Qed.

End Properties.

(* ===================================================================== *)
(** ** The handlers on concrete requests *)
(* ===================================================================== *)

Example alice_registered :
  rows Toy.w_alice
  = [User.mk 1 "Alice" "Liddell" "a@x.com" 1234567890 "$2b$p1" 100 None None].
Proof. reflexivity. Qed.

Example alice_token_issued :
  rows Toy.w_forgot
  = [User.mk 1 "Alice" "Liddell" "a@x.com" 1234567890 "$2b$p1" 100
       (Some Toy.alice_token) (Some 3800)].
Proof. reflexivity. Qed.

(** C1, refuted as stated.  The token that [forgot_password] issued to
    Alice at time 200 resets her password at time 300, and the same
    token, still unexpired at time 400, resets it once more. *)
Lemma reset_token_reused :
  let w1 := snd (Toy.reset_password (Toy.env_at 300) Toy.alice_token "new1"
                   Toy.w_forgot) in
  let w2 := snd (Toy.reset_password (Toy.env_at 400) Toy.alice_token "new2"
                   w1) in
  fst (Toy.reset_password (Toy.env_at 300) Toy.alice_token "new1" Toy.w_forgot)
  = Return "Password reset successfully"
  /\ option_map User.password (find_by_email (rows w1) "a@x.com")
     = Some "$2b$new1"
  /\ Toy.jwt_decode Toy.SECRET_KEY 400 Toy.alice_token
     = Claims (mkPayload (Some "a@x.com") 3800)
  /\ fst (Toy.reset_password (Toy.env_at 400) Toy.alice_token "new2" w1)
     = Return "Password reset successfully"
  /\ option_map User.password (find_by_email (rows w2) "a@x.com")
     = Some "$2b$new2".
Proof. vm_compute. repeat split. Qed.

(** C2, at the failing input.  [forgot_password] for Alice's email with
    a store whose [commit] raises: the exception leaves the handler, no
    [close] was called and the session stays open. *)
Lemma forgot_password_commit_failure_leaves_session_open :
  fst (Toy.forgot_password (Toy.env_commit_fails 200) "a@x.com" Toy.w_alice)
  = Raise SQLAlchemyError
  /\ events (Toy.forgot_password (Toy.env_commit_fails 200) "a@x.com")
       Toy.w_alice
     = [EvSessionLocal; EvQuery; EvJwtEncode; EvSetAttr; EvSetAttr; EvCommit]
  /\ open_sessions Toy.w_alice = 0%nat
  /\ open_sessions
       (snd (Toy.forgot_password (Toy.env_commit_fails 200) "a@x.com"
               Toy.w_alice)) = 1%nat.
Proof. vm_compute. repeat split. Qed.

(** C3, at the failing input.  With a store whose [commit] raises,
    [forgot_password] and [reset_password] let the exception out without
    a [rollback] ([reset_password] closes the session, [forgot_password]
    does not even do that), where [register] rolls back first. *)
Lemma commit_failure_without_rollback :
  fst (Toy.forgot_password (Toy.env_commit_fails 200) "a@x.com" Toy.w_alice)
  = Raise SQLAlchemyError
  /\ existsb (Event_eqb EvRollback)
       (events (Toy.forgot_password (Toy.env_commit_fails 200) "a@x.com")
          Toy.w_alice) = false
  /\ fst (Toy.reset_password (Toy.env_commit_fails 300) Toy.alice_token "new1"
            Toy.w_forgot)
     = Raise SQLAlchemyError
  /\ events (Toy.reset_password (Toy.env_commit_fails 300) Toy.alice_token
               "new1") Toy.w_forgot
     = [EvSessionLocal; EvJwtDecode; EvQuery; EvHash; EvSetAttr; EvCommit;
        EvClose]
  /\ events (Toy.post_register (Toy.env_commit_fails 100) Toy.alice)
       init_world
     = [EvSessionLocal; EvHash; EvQuery; EvAdd; EvCommit; EvRollback;
        EvClose].
Proof. vm_compute. repeat split. Qed.

(** C4, refuted as stated.  A body with empty names and an empty
    password is registered; and a body that does fail validation is
    not answered with 400. *)
Lemma register_accepts_empty_names_and_password :
  fst (Toy.post_register (Toy.env_at 100) Toy.nameless init_world)
  = Return "User registered successfully"
  /\ rows (snd (Toy.post_register (Toy.env_at 100) Toy.nameless init_world))
     = [User.mk 1 "" "" "b@x.com" 1234567891 "$2b$" 100 None None]
  /\ fst (Toy.post_register (Toy.env_at 100) Toy.short_phone init_world)
     = Raise RequestValidationError
  /\ status (fst (Toy.post_register (Toy.env_at 100) Toy.short_phone
                    init_world)) <> 400.
Proof. vm_compute. repeat split. discriminate. Qed.

(** C5, refuted as stated.  On a valid registration the password is
    hashed before the store is asked about the email and the phone
    number, not after. *)
Lemma register_hashes_before_uniqueness_check :
  events (Toy.post_register (Toy.env_at 100) Toy.alice) init_world
  = [EvSessionLocal; EvHash; EvQuery; EvAdd; EvCommit; EvRefresh; EvClose]
  /\ precedes EvQuery EvHash
       (events (Toy.post_register (Toy.env_at 100) Toy.alice) init_world)
     = false
  /\ precedes EvHash EvQuery
       (events (Toy.post_register (Toy.env_at 100) Toy.alice) init_world)
     = true.
Proof. vm_compute. repeat split. Qed.

(** C8, refuted as stated.  For Alice's email and a password that the
    verifier refuses, [login] answers neither 400 nor 200: the exception
    leaves the handler, a 500 for the client, and the session it opened
    stays open. *)
Lemma login_verifier_raises :
  find_by_email (rows Toy.w_alice) "a@x.com" = Some Toy.alice_row
  /\ Toy.pwd_verify Toy.nul_password (User.password Toy.alice_row) = None
  /\ fst (Toy.login (Toy.env_at 500) "a@x.com" Toy.nul_password Toy.w_alice)
     = Raise PasswordValueError
  /\ status (fst (Toy.login (Toy.env_at 500) "a@x.com" Toy.nul_password
                    Toy.w_alice)) = 500
  /\ open_sessions
       (snd (Toy.login (Toy.env_at 500) "a@x.com" Toy.nul_password
               Toy.w_alice)) = 1%nat.
Proof. vm_compute. repeat split. Qed.

(* ===================================================================== *)
(** ** The theorems at concrete requests *)
(* ===================================================================== *)

Lemma reset_token_not_consumed_witness :
  fst (Toy.reset_password (Toy.env_at 300) Toy.alice_token "new1" Toy.w_forgot)
  = Return "Password reset successfully"
  /\ fst (Toy.reset_password (Toy.env_at 400) Toy.alice_token "new2"
            (snd (Toy.reset_password (Toy.env_at 300) Toy.alice_token "new1"
                    Toy.w_forgot)))
     = Return "Password reset successfully".
Proof.
  split; [reflexivity|].
  apply (reset_token_not_consumed Toy.pwd_hash Toy.jwt_decode Toy.SECRET_KEY
           (Toy.env_at 300) (Toy.env_at 400) Toy.alice_token "new1" "new2"
           Toy.w_forgot "Password reset successfully" "$2b$new2");
    reflexivity.
Defined.

(** Alice never asked for a reset: her reset columns are null, and a
    token signed with the key still changes her password. *)
Lemma reset_password_token_only_witness :
  User.reset_token
    (User.mk 1 "Alice" "Liddell" "a@x.com" 1234567890 "$2b$p1" 100 None None)
  = None
  /\ fst (Toy.reset_password (Toy.env_at 300) Toy.alice_token "new1"
            Toy.w_alice)
     = Return "Password reset successfully"
  /\ find_by_email
       (rows (snd (Toy.reset_password (Toy.env_at 300) Toy.alice_token "new1"
                     Toy.w_alice))) "a@x.com"
     = Some (User.mk 1 "Alice" "Liddell" "a@x.com" 1234567890 "$2b$new1" 100
               None None).
Proof.
  split; [reflexivity|].
  apply (proj2 (reset_password_token_only Toy.pwd_hash Toy.jwt_decode
                  Toy.SECRET_KEY (Toy.env_at 300) Toy.alice_token "new1"
                  Toy.w_alice)
           (mkPayload (Some "a@x.com") 3800) "a@x.com"
           (User.mk 1 "Alice" "Liddell" "a@x.com" 1234567890 "$2b$p1" 100
              None None) "$2b$new1");
    reflexivity.
Defined.

(** Alice's registration on the empty table: the hash, the lookup, the
    add and the commit, in this order, and her row in the table. *)
Lemma register_hashes_then_checks_then_inserts_witness :
  exists rest',
    events (Toy.register (Toy.env_at 100) Toy.alice_user) init_world
    = EvSessionLocal :: EvHash :: EvQuery :: EvAdd :: EvCommit :: rest'
    /\ ~ In EvAdd rest'
    /\ rows (snd (Toy.register (Toy.env_at 100) Toy.alice_user init_world))
       = [] ++ [new_row 1 100 Toy.alice_user "$2b$p1"].
Proof.
  destruct (proj2 (register_hashes_then_checks_then_inserts Toy.pwd_hash
                     (Toy.env_at 100) Toy.alice_user init_world)
              "$2b$p1" eq_refl)
    as (rest & Hev & _ & _ & _ & Hins & _).
  destruct (Hins eq_refl eq_refl) as ((rest' & -> & Hno) & Hrows).
  exists rest'. split; [exact Hev|]. split; [exact Hno|].
  exact (Hrows eq_refl).
Defined.

Lemma register_stores_verifiable_hash_witness :
  fst (Toy.post_register (Toy.env_at 100) Toy.alice init_world)
  = Return "User registered successfully"
  /\ exists u,
       find_by_email
         (rows (snd (Toy.post_register (Toy.env_at 100) Toy.alice init_world)))
         "a@x.com" = Some u
       /\ User.password u = "$2b$p1"
       /\ User.password u <> "p1"
       /\ Toy.pwd_verify "p1" (User.password u) = Some true.
Proof.
  apply (register_stores_verifiable_hash Toy.pwd_hash Toy.pwd_verify
           Toy.EmailStr (Toy.env_at 100) Toy.alice
           (UserCreate.mk "Alice" "Liddell" "a@x.com" 1234567890 "p1")
           init_world "$2b$p1").
  - intros s p h'. unfold Toy.pwd_verify, Toy.pwd_hash.
    destruct (Toy.has_nul p); [discriminate|].
    intros [= <-]. now rewrite String.eqb_refl.
  - intros s p h'. unfold Toy.pwd_hash.
    destruct (Toy.has_nul p); [discriminate|].
    intros [= <-] H. apply (f_equal String.length) in H. cbn in H. lia.
  - reflexivity.
  - reflexivity.
  - intros u [].
  - reflexivity.
  - reflexivity.
  - reflexivity.
Defined.

Lemma login_outcomes_and_no_mutation_witness :
  fst (Toy.login (Toy.env_at 500) "a@x.com" "p1" Toy.w_alice)
  = Return "Login successful"
  /\ fst (Toy.login (Toy.env_at 500) "a@x.com" "wrong" Toy.w_alice)
     = Raise (HTTPException 400 "Invalid password")
  /\ fst (Toy.login (Toy.env_at 500) "z@x.com" "p1" Toy.w_alice)
     = Raise (HTTPException 400 "Email not found")
  /\ fst (Toy.login (Toy.env_at 500) "a@x.com" Toy.nul_password Toy.w_alice)
     = Raise PasswordValueError
  /\ rows (snd (Toy.login (Toy.env_at 500) "a@x.com" "p1" Toy.w_alice))
     = rows Toy.w_alice.
Proof.
  pose (u := User.mk 1 "Alice" "Liddell" "a@x.com" 1234567890 "$2b$p1" 100
               None None).
  split; [|split; [|split; [|split]]].
  - apply (proj1 (proj1 (proj2 (proj2 (proj2 (login_outcomes_and_no_mutation
             Toy.pwd_verify (Toy.env_at 500) "a@x.com" "p1" Toy.w_alice
             eq_refl)))) u eq_refl eq_refl)).
  - apply (proj1 (proj1 (proj2 (proj2 (login_outcomes_and_no_mutation
             Toy.pwd_verify (Toy.env_at 500) "a@x.com" "wrong" Toy.w_alice
             eq_refl))) u eq_refl eq_refl)).
  - apply (proj1 (proj1 (proj2 (login_outcomes_and_no_mutation
             Toy.pwd_verify (Toy.env_at 500) "z@x.com" "p1" Toy.w_alice
             eq_refl)) eq_refl)).
  - apply (proj1 (proj2 (proj2 (proj2 (proj2 (login_outcomes_and_no_mutation
             Toy.pwd_verify (Toy.env_at 500) "a@x.com" Toy.nul_password
             Toy.w_alice eq_refl)))) u eq_refl eq_refl)).
  - apply (proj1 (login_outcomes_and_no_mutation
             Toy.pwd_verify (Toy.env_at 500) "a@x.com" "p1" Toy.w_alice
             eq_refl)).
Defined.

Lemma reset_fields_both_or_neither_witness :
  Toy.reachable Toy.w_forgot
  /\ forall u, In u (rows Toy.w_forgot) ->
       (User.reset_token u = None <-> User.reset_token_expires u = None).
Proof.
  assert (H : Toy.reachable Toy.w_forgot).
  { unfold Toy.reachable, Toy.w_forgot, Toy.w_alice, Toy.exec.
    apply reach_step. apply reach_step. apply reach_init. }
  split; [exact H|].
  exact (proj1 (reset_fields_both_or_neither Toy.pwd_hash Toy.pwd_verify
                  Toy.jwt_encode Toy.jwt_decode Toy.EmailStr Toy.SECRET_KEY)
           Toy.w_forgot H).
Defined.

Lemma register_same_email_twice_witness :
  fst (Toy.post_register (Toy.env_at 100) Toy.alice init_world)
  = Return "User registered successfully"
  /\ fst (Toy.post_register (Toy.env_at 150) Toy.alice Toy.w_alice)
     = Raise (HTTPException 400 "Email or Phone Number already registered")
  /\ rows (snd (Toy.post_register (Toy.env_at 150) Toy.alice Toy.w_alice))
     = rows Toy.w_alice.
Proof.
  split; [reflexivity|].
  destruct (register_same_email_twice Toy.pwd_hash Toy.EmailStr
              (Toy.env_at 100) (Toy.env_at 150) Toy.alice Toy.alice
              (UserCreate.mk "Alice" "Liddell" "a@x.com" 1234567890 "p1")
              init_world "User registered successfully" "$2b$p1"
              eq_refl eq_refl eq_refl eq_refl eq_refl) as (H1 & _ & H2 & _).
  split; [exact H1 | exact H2].
Defined.

Lemma register_validates_email_and_phone_witness :
  Toy.post_register (Toy.env_at 100) Toy.short_phone init_world
  = (Raise RequestValidationError, init_world)
  /\ Toy.post_register (Toy.env_at 100) Toy.nameless init_world
     = Toy.register (Toy.env_at 100)
         (UserCreate.mk "" "" "b@x.com" 1234567891 "") init_world.
Proof.
  split.
  - apply (proj1 (register_validates_email_and_phone Toy.pwd_hash Toy.EmailStr
                    (Toy.env_at 100) Toy.short_phone init_world)).
    right. right. left. vm_compute. reflexivity.
  - apply (proj2 (register_validates_email_and_phone Toy.pwd_hash Toy.EmailStr
                    (Toy.env_at 100) Toy.nameless init_world) "b@x.com").
    + reflexivity.
    + reflexivity.
    + vm_compute. split; discriminate.
Defined.

(* ===================================================================== *)
(** ** The phone number validator *)
(* ===================================================================== *)

Lemma is_digit_value c :
  is_digit c = true -> 0 <= Z.of_nat (nat_of_ascii c) - 48 <= 9.
Proof.
  unfold is_digit. intros H. apply andb_true_iff in H. destruct H as [H1 H2].
  apply Nat.leb_le in H1, H2. lia.
Qed.

(** Reading digits left to right from an accumulator. *)
Lemma fold_digits_bounds l : forall acc,
  0 <= acc ->
  forallb is_digit l = true ->
  acc * 10 ^ Z.of_nat (length l)
  <= fold_left (fun a c => 10 * a + (Z.of_nat (nat_of_ascii c) - 48)) l acc
  < (acc + 1) * 10 ^ Z.of_nat (length l).
Proof.
  induction l as [|c l IH]; intros acc Hacc Hd.
  - cbn. lia.
  - cbn [forallb] in Hd. apply andb_true_iff in Hd. destruct Hd as [Hc Hl].
    pose proof (is_digit_value c Hc) as Hv.
    cbn [fold_left length].
    specialize (IH (10 * acc + (Z.of_nat (nat_of_ascii c) - 48))
                  ltac:(lia) Hl).
    rewrite Nat2Z.inj_succ, Z.pow_succ_r by lia.
    assert (Hp : 0 < 10 ^ Z.of_nat (length l)) by (apply Z.pow_pos_nonneg; lia).
    nia.
Qed.

Lemma isdigit_forallb v :
  isdigit v = true -> forallb is_digit (list_ascii_of_string v) = true.
Proof. destruct v; [discriminate | trivial]. Qed.

Lemma validate_phone_number_some v n :
  validate_phone_number v = Some n ->
  isdigit v = true /\ 10 <= len v <= 15 /\ n = int v.
Proof.
  unfold validate_phone_number.
  destruct (isdigit v); cbn; [|discriminate].
  destruct (10 <=? len v) eqn:Hlo; cbn; [|discriminate].
  destruct (len v <=? 15) eqn:Hhi; cbn; [|discriminate].
  intros [= <-]. apply Z.leb_le in Hlo, Hhi. auto.
Qed.

Lemma length_list_ascii_of_string v :
  length (list_ascii_of_string v) = String.length v.
Proof. induction v; cbn; auto. Qed.

(** X1. A phone number that passes the validator is stored as a
    non-negative integer below [10 ^ 15] (so inside a signed 64-bit
    column), and below [10 ^ len v] in particular. *)
Theorem validate_phone_number_range v n :
  validate_phone_number v = Some n ->
  0 <= n < 10 ^ len v /\ n < 10 ^ 15 /\ n < 2 ^ 63.
Proof.
  intros H. destruct (validate_phone_number_some _ _ H) as (Hd & [Hlo Hhi] & ->).
  pose proof (fold_digits_bounds (list_ascii_of_string v) 0 ltac:(lia)
                (isdigit_forallb v Hd)) as Hb.
  rewrite length_list_ascii_of_string in Hb. fold (len v) in Hb.
  fold (int v) in Hb.
  assert (Hpow : 10 ^ len v <= 10 ^ 15)
    by (apply Z.pow_le_mono_r; lia).
  assert (H63 : 10 ^ 15 < 2 ^ 63) by (vm_compute; reflexivity).
  lia.
Qed.

(** X2. The validator drops leading zeros: a number that passes, with
    room for one more digit, passes with a zero in front as the same
    integer. *)
Theorem validate_phone_number_leading_zero v n :
  validate_phone_number v = Some n ->
  len v < 15 ->
  validate_phone_number (String "0" v) = Some n.
Proof.
  intros H Hlen. destruct (validate_phone_number_some _ _ H) as (Hd & [Hlo _] & ->).
  unfold validate_phone_number.
  assert (Hd' : isdigit (String "0" v) = true).
  { cbn. now apply isdigit_forallb. }
  rewrite Hd'.
  assert (Hl : len (String "0" v) = len v + 1).
  { unfold len. cbn [String.length]. lia. }
  rewrite Hl.
  destruct (Z.leb_spec 10 (len v + 1)); [|lia].
  destruct (Z.leb_spec (len v + 1) 15); [|lia].
  reflexivity.
Qed.

(* ===================================================================== *)
(** ** Rows under inserts and updates *)
(* ===================================================================== *)

(** An update by primary key with an assignment that keeps a column
    keeps that column in every row. *)
Lemma map_column_update {B} (col : User.t -> B) (f : User.t -> User.t) i rs :
  (forall r, col (f r) = col r) ->
  map col (map (fun r => if User.id r =? i then f r else r) rs) = map col rs.
Proof.
  intros Hf. rewrite map_map. apply map_ext. intros r.
  destruct (User.id r =? i); [apply Hf | reflexivity].
Qed.

(** The two assignments of [forgot_password], flushed one after the
    other, are one update of the rows with that key. *)
Lemma update_twice a1 a2 i rs :
  map (fun r => if User.id r =? i then assign a2 r else r)
      (map (fun r => if User.id r =? i then assign a1 r else r) rs)
  = map (fun r => if User.id r =? i then assign a2 (assign a1 r) else r) rs.
Proof.
  rewrite map_map. apply map_ext. intros r.
  destruct (User.id r =? i) eqn:E.
  - now rewrite assign_id, E.
  - now rewrite E.
Qed.

Lemma NoDup_snoc {A} (l : list A) x :
  NoDup l -> ~ In x l -> NoDup (l ++ [x]).
Proof.
  induction l as [|a l IH]; cbn; intros Hnd Hx.
  - constructor; [tauto | constructor].
  - inversion Hnd as [|? ? Ha Hl]; subst. constructor.
    + rewrite in_app_iff. cbn. intros [H|[H|[]]]; [tauto|].
      apply Hx. now left.
    + apply IH; [assumption|]. tauto.
Qed.

(** With unique primary keys, a row is known by its key. *)
Lemma unique_id_eq rs a b :
  NoDup (map User.id rs) ->
  In a rs -> In b rs -> User.id a = User.id b -> a = b.
Proof.
  induction rs as [|r rs IH]; cbn; [tauto|].
  intros Hnd Ha Hb Hid. inversion Hnd as [|? ? Hr Hrs]; subst.
  destruct Ha as [->|Ha], Hb as [->|Hb]; try reflexivity.
  - exfalso. apply Hr. rewrite Hid. now apply in_map.
  - exfalso. apply Hr. rewrite <- Hid. now apply in_map.
  - now apply IH.
Qed.

Lemma not_taken_fresh user rs :
  find (email_or_phone_taken user) rs = None ->
  ~ In (UserCreate.email user) (map User.email rs)
  /\ ~ In (UserCreate.phone_number user) (map User.phone_number rs).
Proof.
  intros Hf. split; intros Hin; apply in_map_iff in Hin;
    destruct Hin as (r & Hr & Hin);
    pose proof (find_none _ _ Hf r Hin) as Hno;
    unfold email_or_phone_taken in Hno;
    apply orb_false_iff in Hno; destruct Hno as [He Hp].
  - rewrite Hr, String.eqb_refl in He. discriminate.
  - rewrite Hr, Z.eqb_refl in Hp. discriminate.
Qed.

Lemma find_by_email_not_taken user rs :
  find (email_or_phone_taken user) rs = None ->
  find_by_email rs (UserCreate.email user) = None.
Proof.
  intros Hf. apply find_none_of_all. intros r Hr.
  pose proof (find_none _ _ Hf r Hr) as Hno.
  unfold email_or_phone_taken in Hno.
  apply orb_false_iff in Hno. tauto.
Qed.

Lemma unique_keys_insert w n' user now h op ss tr :
  unique_keys w ->
  find (email_or_phone_taken user) (rows w) = None ->
  n' = next_id w + 1 ->
  unique_keys
    (mkWorld (rows w ++ [new_row (next_id w) now user h]) n' op ss tr).
Proof.
  intros (Hid & Hem & Hph & Hlt) Hf ->.
  destruct (not_taken_fresh _ _ Hf) as [He Hp].
  unfold unique_keys. cbn [rows next_id]. rewrite !map_app. cbn [map].
  repeat split.
  - apply NoDup_snoc; [assumption|]. cbn. intros Hin.
    apply in_map_iff in Hin. destruct Hin as (r & Hr & Hin).
    rewrite Forall_forall in Hlt. specialize (Hlt r Hin). lia.
  - now apply NoDup_snoc.
  - now apply NoDup_snoc.
  - apply Forall_app. split.
    + eapply Forall_impl; [|exact Hlt]. cbn. intros; lia.
    + constructor; [cbn; lia | constructor].
Qed.

Lemma unique_keys_update w f i op ss tr :
  (forall r, account_key (f r) = account_key r) ->
  unique_keys w ->
  unique_keys
    (mkWorld (map (fun r => if User.id r =? i then f r else r) (rows w))
       (next_id w) op ss tr).
Proof.
  intros Hf (Hid & Hem & Hph & Hlt).
  assert (Hi : forall r, User.id (f r) = User.id r)
    by (intros r; now injection (Hf r)).
  assert (He : forall r, User.email (f r) = User.email r)
    by (intros r; now injection (Hf r)).
  assert (Hp : forall r, User.phone_number (f r) = User.phone_number r)
    by (intros r; now injection (Hf r)).
  unfold unique_keys. cbn [rows next_id].
  rewrite !map_column_update by assumption.
  repeat split; try assumption.
  apply Forall_map. eapply Forall_impl; [|exact Hlt].
  intros r Hr. cbn. destruct (User.id r =? i); [rewrite Hi|]; exact Hr.
Qed.

Lemma account_key_assign a r : account_key (assign a r) = account_key r.
Proof. destruct a; reflexivity. Qed.

(* ===================================================================== *)
(** ** What a request does to the table *)
(* ===================================================================== *)

Section Table.

Set Default Proof Using "Type".

Context (pwd_hash : string -> string -> option string)
        (pwd_verify : string -> string -> option bool)
        (jwt_encode : string -> Payload -> string)
        (jwt_decode : string -> Z -> string -> Decoded)
        (EmailStr : string -> option string)
        (SECRET_KEY : string).

Local Abbreviation register := (register pwd_hash).
Local Abbreviation post_register := (post_register pwd_hash EmailStr).
Local Abbreviation login := (login pwd_verify).
Local Abbreviation forgot_password := (forgot_password jwt_encode SECRET_KEY).
Local Abbreviation reset_password :=
  (reset_password pwd_hash jwt_decode SECRET_KEY).
Local Abbreviation UserCreate_validate := (UserCreate_validate EmailStr).
Local Abbreviation exec :=
  (exec pwd_hash pwd_verify jwt_encode jwt_decode EmailStr SECRET_KEY).
Local Abbreviation reachable :=
  (reachable pwd_hash pwd_verify jwt_encode jwt_decode EmailStr SECRET_KEY).

(** The token [forgot_password] signs for the row [u]. *)
Local Abbreviation issued env u :=
  (jwt_encode SECRET_KEY
     (mkPayload (Some (User.email u)) (utcnow env + 3600))).

(** A request leaves the table as it is, or appends one row whose email
    and phone number were free, or writes the two reset columns of the
    rows with one key, or the password of the rows with one key. *)
Lemma exec_table op w :
  (rows (snd (exec op w)) = rows w
   /\ next_id (snd (exec op w)) = next_id w)
  \/ (exists user h,
        pwd_hash (salt (op_env op)) (UserCreate.password user) = Some h
        /\ find (email_or_phone_taken user) (rows w) = None
        /\ rows (snd (exec op w))
           = rows w ++ [new_row (next_id w) (server_now (op_env op)) user h]
        /\ next_id (snd (exec op w)) = next_id w + 1)
  \/ (exists u,
        In u (rows w)
        /\ rows (snd (exec op w))
           = map (fun r =>
                    if User.id r =? User.id u
                    then assign (SetResetTokenExpires
                                   (Some (utcnow2 (op_env op) + 3600)))
                           (assign (SetResetToken
                                      (Some (issued (op_env op) u))) r)
                    else r) (rows w)
        /\ next_id (snd (exec op w)) = next_id w)
  \/ (exists u p h,
        In u (rows w)
        /\ pwd_hash (salt (op_env op)) p = Some h
        /\ rows (snd (exec op w))
           = map (fun r =>
                    if User.id r =? User.id u
                    then assign (SetPassword h) r
                    else r) (rows w)
        /\ next_id (snd (exec op w)) = next_id w).
Proof.
  destruct op as [env b|env e p|env e|env t p]; unfold_exec; cbn [op_env].
  - unfold_post_register.
    destruct (UserCreate_validate b) as [user|]; [|left; split; reflexivity].
    run_handler.
    destruct (pwd_hash (salt env) (UserCreate.password user)) as [h|] eqn:Hh;
      cbn; [|left; split; reflexivity].
    case_flag (query_fails env); [left; split; reflexivity|].
    destruct (find _ (rows w)) eqn:Hf; cbn; [left; split; reflexivity|].
    case_flag (commit_fails env); [left; split; reflexivity|].
    right. left. exists user, h.
    case_flag (refresh_fails env); repeat split; assumption.
  - left. run_handler.
    case_flag (query_fails env); [split; reflexivity|].
    destruct (find _ (rows w)) as [u|]; cbn; [|split; reflexivity].
    destruct (pwd_verify p (User.password u)) as [[|]|]; split; reflexivity.
  - run_handler.
    case_flag (query_fails env); [left; split; reflexivity|].
    destruct (find _ (rows w)) as [u|] eqn:Hf; cbn;
      [|left; split; reflexivity].
    case_flag (commit_fails env); [left; split; reflexivity|].
    right. right. left. exists u. apply find_some in Hf.
    split; [tauto|]. split; [|reflexivity].
    exact (update_twice (SetResetToken (Some (issued env u)))
             (SetResetTokenExpires (Some (utcnow2 env + 3600)))
             (User.id u) (rows w)).
  - run_handler.
    destruct (jwt_decode SECRET_KEY (utcnow env) t); cbn;
      try (left; split; reflexivity).
    case_flag (query_fails env); [left; split; reflexivity|].
    destruct (find _ (rows w)) as [u|] eqn:Hf; cbn;
      [|left; split; reflexivity].
    destruct (pwd_hash (salt env) p) as [h|] eqn:Hh; cbn;
      [|left; split; reflexivity].
    case_flag (commit_fails env); [left; split; reflexivity|].
    right. right. right. exists u, p, h. apply find_some in Hf.
    split; [tauto|]. split; [exact Hh|]. split; reflexivity.
Qed.

Lemma exec_preserves_unique_keys op w :
  unique_keys w -> unique_keys (snd (exec op w)).
Proof.
  intros H.
  destruct (snd (exec op w)) as [rs n os ps tr] eqn:Hw.
  pose proof (exec_table op w) as Hs. rewrite Hw in Hs. cbn [rows next_id] in Hs.
  destruct Hs as [[-> ->]|[(user & h & _ & Hf & -> & ->)
                          |[(u & _ & -> & ->)|(u & p & h & _ & _ & -> & ->)]]].
  - exact H.
  - now apply unique_keys_insert.
  - apply unique_keys_update; [|exact H].
    intros r. now rewrite !account_key_assign.
  - apply unique_keys_update; [|exact H].
    intros r. now rewrite account_key_assign.
Qed.

(** X3. In every world the service can reach from the empty table,
    primary keys, emails and phone numbers are each unique across the
    accounts: the lookup in [register] keeps what the [unique=True]
    columns ask for. *)
Theorem reachable_unique_keys w :
  reachable w ->
  NoDup (map User.id (rows w))
  /\ NoDup (map User.email (rows w))
  /\ NoDup (map User.phone_number (rows w)).
Proof using SECRET_KEY EmailStr jwt_decode jwt_encode pwd_verify pwd_hash.
  intros Hw.
  assert (H : unique_keys w).
  { induction Hw as [|op w Hw IH].
    - unfold unique_keys. cbn. repeat split; constructor.
    - now apply exec_preserves_unique_keys. }
  destruct H as (H1 & H2 & H3 & _). auto.
Qed.

(** X4. No request deletes an account or rewrites its key, names,
    email, phone number or creation time: on these columns the table
    after a request is the table before it, followed by at most one new
    account. *)
Theorem accounts_append_only op w :
  exists new,
    map account_key (rows (snd (exec op w)))
    = map account_key (rows w) ++ new
    /\ (length new <= 1)%nat.
Proof.
  destruct (exec_table op w)
    as [[Hr _]|[(user & h & Hh & _ & Hr & _)
               |[(u & _ & Hr & _)|(u & p & h & _ & Hh & Hr & _)]]];
    rewrite Hr.
  - exists []. rewrite app_nil_r. cbn. auto.
  - eexists. rewrite map_app. split; [reflexivity|]. cbn. auto.
  - exists []. rewrite app_nil_r. cbn. split; [|auto].
    apply map_column_update. intros r. reflexivity.
  - exists []. rewrite app_nil_r. cbn. split; [|auto].
    apply map_column_update. intros r. reflexivity.
Qed.

Lemma exec_preserves_passwords_hashed op w :
  passwords_hashed pwd_hash w -> passwords_hashed pwd_hash (snd (exec op w)).
Proof.
  unfold passwords_hashed. intros H.
  destruct (exec_table op w)
    as [[Hr _]|[(user & h & Hh & _ & Hr & _)
               |[(u & _ & Hr & _)|(u & p & h & _ & Hh & Hr & _)]]];
    rewrite Hr.
  - exact H.
  - apply Forall_app. split; [exact H|].
    constructor; [|constructor]. cbn. eauto.
  - apply Forall_map. eapply Forall_impl; [|exact H].
    intros r Hr'. destruct (User.id r =? User.id u); exact Hr'.
  - apply Forall_map. eapply Forall_impl; [|exact H].
    intros r Hr'. destruct (User.id r =? User.id u); [|exact Hr'].
    cbn. eauto.
Qed.

Lemma exec_preserves_tokens_issued op w :
  unique_keys w ->
  tokens_issued jwt_encode SECRET_KEY w ->
  tokens_issued jwt_encode SECRET_KEY (snd (exec op w)).
Proof.
  unfold tokens_issued. intros (Hid & _) H.
  destruct (exec_table op w)
    as [[Hr _]|[(user & h & Hh & _ & Hr & _)
               |[(u & Hu & Hr & _)|(u & p & h & _ & Hh & Hr & _)]]];
    rewrite Hr.
  - exact H.
  - apply Forall_app. split; [exact H|].
    constructor; [|constructor]. cbn. discriminate.
  - apply Forall_map. rewrite Forall_forall in H |- *.
    intros r Hin. destruct (User.id r =? User.id u) eqn:E.
    + apply Z.eqb_eq in E.
      assert (r = u) by (eapply unique_id_eq; eassumption). subst r.
      cbn. intros t [= <-]. eauto.
    + now apply H.
  - apply Forall_map. eapply Forall_impl; [|exact H].
    intros r Hr'. destruct (User.id r =? User.id u); exact Hr'.
Qed.

(** X5. In every reachable world the password column of every account
    holds an output of the hasher: no handler stores a password it was
    given. *)
Theorem reachable_passwords_hashed w :
  reachable w ->
  forall u, In u (rows w) ->
    exists s p, pwd_hash s p = Some (User.password u).
Proof using SECRET_KEY EmailStr jwt_decode jwt_encode pwd_verify pwd_hash.
  intros Hw.
  assert (H : passwords_hashed pwd_hash w).
  { induction Hw as [|op w Hw IH].
    - constructor.
    - now apply exec_preserves_passwords_hashed. }
  unfold passwords_hashed in H. rewrite Forall_forall in H. exact H.
Qed.

(** X6. In every reachable world a stored reset token is a token signed
    with the service's key for the email of the account that stores it. *)
Theorem reachable_tokens_issued w :
  reachable w ->
  forall u t, In u (rows w) -> User.reset_token u = Some t ->
    exists exp,
      t = jwt_encode SECRET_KEY (mkPayload (Some (User.email u)) exp).
Proof using SECRET_KEY EmailStr jwt_decode jwt_encode pwd_verify pwd_hash.
  intros Hw.
  assert (H : unique_keys w /\ tokens_issued jwt_encode SECRET_KEY w).
  { induction Hw as [|op w Hw [IH1 IH2]].
    - split; [|constructor].
      unfold unique_keys. cbn. repeat split; constructor.
    - split.
      + now apply exec_preserves_unique_keys.
      + now apply exec_preserves_tokens_issued. }
  destruct H as [_ H]. unfold tokens_issued in H.
  rewrite Forall_forall in H. intros u t Hu. now apply H.
Qed.

(** X7. [reset_password] leaves no session open on any path, store
    and hasher failures included; [register] leaves none open once the
    hasher has accepted the password, whatever the store does; [login]
    leaves none open when the lookup answers and the verifier does not
    raise, [forgot_password] when lookup and commit answer.  No request
    leaves writes pending in those cases. *)
Theorem sessions_closed op w :
  match op with
  | OpRegister env b => pwd_hash (salt env) (Body.password b) <> None
  | OpResetPassword _ _ _ => True
  | OpLogin env e p =>
      query_fails env = false
      /\ (forall u, find_by_email (rows w) e = Some u ->
                    pwd_verify p (User.password u) <> None)
  | OpForgotPassword env _ =>
      query_fails env = false /\ commit_fails env = false
  end ->
  open_sessions (snd (exec op w)) = open_sessions w
  /\ (pending w = [] -> pending (snd (exec op w)) = []).
Proof.
  destruct op as [env b|env e p|env e|env t p]; unfold_exec.
  - intros Hh. unfold_post_register.
    destruct (UserCreate_validate b) as [user|] eqn:Hval; [|cbn; auto].
    destruct (UserCreate_validate_fields EmailStr _ _ Hval)
      as (_ & _ & _ & _ & Hpw).
    rewrite <- Hpw in Hh.
    run_handler.
    destruct (pwd_hash (salt env) (UserCreate.password user)); cbn;
      [|contradiction].
    case_flag (query_fails env); [auto|].
    destruct (find _ (rows w)); cbn; [auto|].
    case_flag (commit_fails env); [auto|].
    case_flag (refresh_fails env); auto.
  - intros [Hq Hv]. unfold find_by_email in Hv. run_handler. rewrite Hq. cbn.
    destruct (find _ (rows w)) as [u|]; cbn; [|auto].
    specialize (Hv u eq_refl).
    destruct (pwd_verify p (User.password u)) as [[|]|]; cbn; auto.
    contradiction.
  - intros [Hq Hc]. run_handler. rewrite Hq. cbn.
    destruct (find _ (rows w)) as [u|]; cbn; [|auto].
    rewrite Hc. cbn. auto.
  - intros _. run_handler.
    destruct (jwt_decode SECRET_KEY (utcnow env) t); cbn; auto.
    case_flag (query_fails env); [auto|].
    destruct (find _ (rows w)); cbn; [|auto].
    destruct (pwd_hash (salt env) p); cbn; [|auto].
    case_flag (commit_fails env); auto.
Qed.

(** X8. A request writes to the rows of at most one primary key: every
    row with another key is in the table afterwards as it was. *)
Theorem one_key_per_request op w :
  exists k, forall r,
    In r (rows w) -> User.id r <> k -> In r (rows (snd (exec op w))).
Proof.
  destruct (exec_table op w)
    as [[Hr _]|[(user & h & Hh & _ & Hr & _)
               |[(u & _ & Hr & _)|(u & p & h & _ & Hh & Hr & _)]]];
    rewrite Hr.
  - exists 0. auto.
  - exists 0. intros r Hin _. apply in_or_app. now left.
  - exists (User.id u). intros r Hin Hk. apply in_map_iff. exists r.
    apply Z.eqb_neq in Hk. rewrite Hk. auto.
  - exists (User.id u). intros r Hin Hk. apply in_map_iff. exists r.
    apply Z.eqb_neq in Hk. rewrite Hk. auto.
Qed.

End Table.

(* ===================================================================== *)
(** ** The requests one by one *)
(* ===================================================================== *)

Section Requests.

Set Default Proof Using "Type".

Context (pwd_hash : string -> string -> option string)
        (pwd_verify : string -> string -> option bool)
        (jwt_encode : string -> Payload -> string)
        (jwt_decode : string -> Z -> string -> Decoded)
        (EmailStr : string -> option string)
        (SECRET_KEY : string).

Local Abbreviation register := (register pwd_hash).
Local Abbreviation post_register := (post_register pwd_hash EmailStr).
Local Abbreviation login := (login pwd_verify).
Local Abbreviation forgot_password := (forgot_password jwt_encode SECRET_KEY).
Local Abbreviation reset_password :=
  (reset_password pwd_hash jwt_decode SECRET_KEY).
Local Abbreviation UserCreate_validate := (UserCreate_validate EmailStr).
Local Abbreviation issued env u :=
  (jwt_encode SECRET_KEY
     (mkPayload (Some (User.email u)) (utcnow env + 3600))).

(** *** Register *)

(** X9. When the hasher has accepted the password, the insert is
    committed and the [refresh] that follows raises, [register] answers
    500 although the account is in the table: the rollback comes after
    the commit. *)
Theorem register_refresh_failure_keeps_account env user w h :
  pwd_hash (salt env) (UserCreate.password user) = Some h ->
  query_fails env = false ->
  find (email_or_phone_taken user) (rows w) = None ->
  commit_fails env = false ->
  refresh_fails env = true ->
  fst (register env user w)
  = Raise (HTTPException 500 "An error occurred during registration.")
  /\ rows (snd (register env user w))
     = rows w ++ [new_row (next_id w) (server_now env) user h]
  /\ find_by_email (rows (snd (register env user w))) (UserCreate.email user)
     = Some (new_row (next_id w) (server_now env) user h).
Proof.
  intros Hh Hq Hf Hc Hr.
  assert (Hrun : register env user w
                 = (Raise (HTTPException 500
                             "An error occurred during registration."),
                    mkWorld
                      (rows w ++ [new_row (next_id w) (server_now env) user h])
                      (next_id w + 1) (open_sessions w) []
                      (trace w ++ [EvSessionLocal; EvHash; EvQuery; EvAdd;
                                   EvCommit; EvRefresh; EvRollback; EvClose]))).
  { run_handler. rewrite Hh. cbn. rewrite Hq, Hf. cbn. rewrite Hc. cbn.
    rewrite Hr. cbn. rewrite <- !app_assoc. reflexivity. }
  rewrite Hrun. cbn [fst snd rows]. repeat split.
  unfold find_by_email.
  rewrite (find_app_none _ _ _ (find_by_email_not_taken _ _ Hf)).
  cbn. now rewrite String.eqb_refl.
Qed.

(** X10. The outcomes of [register].  When the hasher refuses the
    password its exception leaves the handler, before the [try]: nothing
    is written and the session stays open.  Otherwise [register] lets no
    exception of the store out: it returns its success message or raises
    one of its two HTTP errors, and when it raises 400 the table is as
    it was. *)
Theorem register_outcomes env user w :
  (pwd_hash (salt env) (UserCreate.password user) = None ->
   fst (register env user w) = Raise PasswordValueError
   /\ rows (snd (register env user w)) = rows w
   /\ open_sessions (snd (register env user w)) = S (open_sessions w))
  /\ (pwd_hash (salt env) (UserCreate.password user) <> None ->
      (fst (register env user w) = Return "User registered successfully"
       \/ fst (register env user w)
          = Raise (HTTPException 400
                     "Email or Phone Number already registered")
       \/ fst (register env user w)
          = Raise (HTTPException 500
                     "An error occurred during registration."))
      /\ (status (fst (register env user w)) = 400 ->
          rows (snd (register env user w)) = rows w
          /\ next_id (snd (register env user w)) = next_id w)).
Proof.
  run_handler.
  destruct (pwd_hash (salt env) (UserCreate.password user)) as [h|]; cbn.
  2:{ split; [auto|]. intros H. now contradiction H. }
  split; [discriminate|]. intros _.
  case_flag (query_fails env); [split; [auto | discriminate]|].
  destruct (find _ (rows w)); cbn; [split; auto|].
  case_flag (commit_fails env); [split; [auto | discriminate]|].
  case_flag (refresh_fails env); split; auto; discriminate.
Qed.

(** X11. Once the hasher has accepted the password, an account with
    the same email or with the same phone number is enough for
    [register] to refuse with 400 and write nothing. *)
Theorem register_refuses_taken_email_or_phone env user w u h :
  pwd_hash (salt env) (UserCreate.password user) = Some h ->
  query_fails env = false ->
  In u (rows w) ->
  User.email u = UserCreate.email user
  \/ User.phone_number u = UserCreate.phone_number user ->
  fst (register env user w)
  = Raise (HTTPException 400 "Email or Phone Number already registered")
  /\ rows (snd (register env user w)) = rows w
  /\ next_id (snd (register env user w)) = next_id w.
Proof.
  intros Hh Hq Hin Hsame.
  assert (Htaken : email_or_phone_taken user u = true).
  { unfold email_or_phone_taken. apply orb_true_iff.
    destruct Hsame as [He|Hp]; [left | right].
    - rewrite He. apply String.eqb_refl.
    - rewrite Hp. apply Z.eqb_refl. }
  destruct (find_some_of_In _ _ _ Hin Htaken) as [x Hx].
  rewrite (register_conflict pwd_hash env user w x h Hh Hq Hx).
  cbn. auto.
Qed.

(** *** Login *)

Lemma login_found env e p w u :
  query_fails env = false ->
  find_by_email (rows w) e = Some u ->
  fst (login env e p w)
  = match pwd_verify p (User.password u) with
    | Some true => Return "Login successful"
    | Some false => Raise (HTTPException 400 "Invalid password")
    | None => Raise PasswordValueError
    end.
Proof.
  unfold find_by_email. intros Hq Hf. run_handler. rewrite Hq, Hf. cbn.
  destruct (pwd_verify p (User.password u)) as [[|]|]; reflexivity.
Qed.

(** X12. After a registration that succeeded, the account holds a hash
    of the submitted password, and a login with the registered email
    succeeds with every password that the verifier accepts against that
    hash, is refused with 400 [Invalid password] for every password it
    rejects, and lets the verifier's exception out for every password it
    refuses. *)
Theorem register_then_login env1 env2 b user w m :
  UserCreate_validate b = Some user ->
  fst (post_register env1 b w) = Return m ->
  query_fails env2 = false ->
  let w1 := snd (post_register env1 b w) in
  exists h,
    pwd_hash (salt env1) (Body.password b) = Some h
    /\ forall pw,
         fst (login env2 (UserCreate.email user) pw w1)
         = match pwd_verify pw h with
           | Some true => Return "Login successful"
           | Some false => Raise (HTTPException 400 "Invalid password")
           | None => Raise PasswordValueError
           end.
Proof.
  intros Hval H1 Hq2 w1. subst w1.
  destruct (UserCreate_validate_fields EmailStr _ _ Hval)
    as (_ & _ & _ & _ & Hpw).
  unfold_post_register. rewrite Hval in H1 |- *.
  destruct (register_success_inv pwd_hash _ _ _ _ H1)
    as (h & Hh & Hq & Hf & Hc & Hr).
  rewrite (register_inserts pwd_hash env1 user w h Hh Hq Hf Hc Hr).
  cbn [snd]. exists h. split; [now rewrite <- Hpw|]. intros pw.
  rewrite (login_found env2 (UserCreate.email user) pw _
             (new_row (next_id w) (server_now env1) user h) Hq2).
  - reflexivity.
  - cbn [rows]. unfold find_by_email.
    rewrite (find_app_none _ _ _ (find_by_email_not_taken _ _ Hf)).
    cbn. now rewrite String.eqb_refl.
Qed.

(** *** Forgot-password *)

(** The run of [forgot_password] for an account that exists, with a
    store that answers. *)
Lemma forgot_password_success env e w u :
  query_fails env = false ->
  find_by_email (rows w) e = Some u ->
  commit_fails env = false ->
  forgot_password env e w
  = (Return "Password reset email sent",
     mkWorld
       (map (fun r =>
               if User.id r =? User.id u
               then assign (SetResetTokenExpires (Some (utcnow2 env + 3600)))
                      (assign (SetResetToken (Some (issued env u))) r)
               else r) (rows w))
       (next_id w) (open_sessions w) []
       (trace w ++ [EvSessionLocal; EvQuery; EvJwtEncode; EvSetAttr;
                    EvSetAttr; EvCommit;
                    EvAddTask (User.email u) (reset_link (issued env u));
                    EvClose])).
Proof.
  unfold find_by_email. intros Hq Hf Hc. run_handler.
  rewrite Hq, Hf. cbn. rewrite Hc. cbn.
  rewrite <- !app_assoc. cbn [app].
  do 2 f_equal.
  exact (update_twice (SetResetToken (Some (issued env u)))
           (SetResetTokenExpires (Some (utcnow2 env + 3600)))
           (User.id u) (rows w)).
Qed.

(** X13. For an email that no account has, [forgot_password] answers
    404, signs no token, enqueues no mail, writes nothing and closes its
    session. *)
Theorem forgot_password_unknown_email env e w :
  query_fails env = false ->
  find_by_email (rows w) e = None ->
  fst (forgot_password env e w) = Raise (HTTPException 404 "Email not found")
  /\ rows (snd (forgot_password env e w)) = rows w
  /\ open_sessions (snd (forgot_password env e w)) = open_sessions w
  /\ events (forgot_password env e) w = [EvSessionLocal; EvQuery; EvClose].
Proof.
  unfold find_by_email. intros Hq Hf. run_handler. rewrite Hq, Hf. cbn.
  repeat split. rewrite <- !app_assoc. apply skipn_length_app.
Qed.

(** X14. For the email of an account, with a store that answers,
    [forgot_password] answers 200, stores on that account a token signed
    for its email that expires an hour after the first clock reading,
    stores as expiry an hour after the second reading, leaves the other
    columns, and enqueues one mail to the account's email whose link
    carries the stored token. *)
Theorem forgot_password_issues_token env e w u :
  query_fails env = false ->
  find_by_email (rows w) e = Some u ->
  commit_fails env = false ->
  fst (forgot_password env e w) = Return "Password reset email sent"
  /\ find_by_email (rows (snd (forgot_password env e w))) e
     = Some (User.mk (User.id u) (User.first_name u) (User.last_name u)
               (User.email u) (User.phone_number u) (User.password u)
               (User.created_at u)
               (Some (jwt_encode SECRET_KEY
                        (mkPayload (Some e) (utcnow env + 3600))))
               (Some (utcnow2 env + 3600)))
  /\ events (forgot_password env e) w
     = [EvSessionLocal; EvQuery; EvJwtEncode; EvSetAttr; EvSetAttr; EvCommit;
        EvAddTask e
          (reset_link (jwt_encode SECRET_KEY
                         (mkPayload (Some e) (utcnow env + 3600))));
        EvClose].
Proof.
  intros Hq Hf Hc.
  assert (He : User.email u = e).
  { unfold find_by_email in Hf. apply find_some in Hf.
    now apply String.eqb_eq. }
  unfold events. rewrite (forgot_password_success env e w u Hq Hf Hc).
  cbn [fst snd rows trace]. rewrite He. split; [reflexivity|]. split.
  - rewrite <- (update_twice
                  (SetResetToken
                     (Some (jwt_encode SECRET_KEY
                              (mkPayload (Some e) (utcnow env + 3600)))))
                  (SetResetTokenExpires (Some (utcnow2 env + 3600)))
                  (User.id u) (rows w)).
    apply (find_by_email_update
             (SetResetToken
                (Some (jwt_encode SECRET_KEY
                         (mkPayload (Some e) (utcnow env + 3600)))))) in Hf.
    apply (find_by_email_update
             (SetResetTokenExpires (Some (utcnow2 env + 3600)))) in Hf.
    cbn [assign User.id User.first_name User.last_name User.email
         User.phone_number User.password User.created_at User.reset_token
         User.reset_token_expires] in Hf.
    rewrite He in Hf. exact Hf.
  - apply skipn_length_app.
Qed.

(** X15. [forgot_password] enqueues a reset mail only on the path that
    committed the token: whenever a mail is among its events, the answer
    is 200, the recipient is the requested email, and the link carries
    the token that the account now stores. *)
Theorem mail_only_after_commit env e w recipient body :
  In (EvAddTask recipient body) (events (forgot_password env e) w) ->
  fst (forgot_password env e w) = Return "Password reset email sent"
  /\ recipient = e
  /\ exists u' t,
       find_by_email (rows (snd (forgot_password env e w))) e = Some u'
       /\ User.reset_token u' = Some t
       /\ body = reset_link t.
Proof.
  destruct (query_fails env) eqn:Hq.
  { unfold events, find_by_email. run_handler. rewrite Hq. cbn.
    rewrite <- !app_assoc, skipn_length_app. no_such_event. }
  destruct (find_by_email (rows w) e) as [u|] eqn:Hf.
  2:{ destruct (forgot_password_unknown_email env e w Hq Hf) as (_ & _ & _ & ->).
      no_such_event. }
  destruct (commit_fails env) eqn:Hc.
  { unfold events. unfold find_by_email in Hf. run_handler.
    rewrite Hq, Hf. cbn. rewrite Hc. cbn.
    rewrite <- !app_assoc, skipn_length_app. no_such_event. }
  destruct (forgot_password_issues_token env e w u Hq Hf Hc) as (H1 & H2 & ->).
  intros Hin. cbn in Hin.
  repeat (destruct Hin as [Hin|Hin]; try discriminate Hin); [|contradiction].
  injection Hin as <- <-.
  split; [exact H1|]. split; [reflexivity|].
  eexists _, _. split; [exact H2|]. split; reflexivity.
Qed.

(** *** Reset-password *)

(** X16. How [reset_password] fails.  An expired token gives 400
    [Token has expired]; a token that does not verify gives 400
    [Invalid token]; so does a token that verifies but names no email, or
    an email that no account has.  Whenever [reset_password] raises,
    these cases and store failures alike, the table is as it was. *)
Theorem reset_password_failures env token new_password w :
  (jwt_decode SECRET_KEY (utcnow env) token = Expired ->
   fst (reset_password env token new_password w)
   = Raise (HTTPException 400 "Token has expired"))
  /\ (jwt_decode SECRET_KEY (utcnow env) token = Invalid ->
      fst (reset_password env token new_password w)
      = Raise (HTTPException 400 "Invalid token"))
  /\ (forall p,
        jwt_decode SECRET_KEY (utcnow env) token = Claims p ->
        query_fails env = false ->
        (forall e, payload_email p = Some e ->
                   find_by_email (rows w) e = None) ->
        fst (reset_password env token new_password w)
        = Raise (HTTPException 400 "Invalid token"))
  /\ (forall x,
        fst (reset_password env token new_password w) = Raise x ->
        rows (snd (reset_password env token new_password w)) = rows w
        /\ next_id (snd (reset_password env token new_password w))
           = next_id w
        /\ open_sessions (snd (reset_password env token new_password w))
           = open_sessions w).
Proof.
  unfold find_by_email. run_handler.
  destruct (jwt_decode SECRET_KEY (utcnow env) token) as [p| |]; cbn.
  2,3: repeat split; intros; auto; discriminate.
  split; [discriminate|]. split; [discriminate|]. split.
  - intros p' [= <-] Hq Hnone. rewrite Hq. cbn.
    destruct (payload_email p) as [e|].
    + now rewrite (Hnone e eq_refl).
    + destruct (find _ (rows w)) as [u|] eqn:Hf; [|reflexivity].
      apply find_some in Hf. destruct Hf as [_ Hf]. discriminate.
  - intros x.
    case_flag (query_fails env); [auto|].
    destruct (find _ (rows w)); cbn; [|auto].
    destruct (pwd_hash (salt env) new_password); cbn; [|auto].
    case_flag (commit_fails env); [auto|discriminate].
Qed.

(** X17. The reset round trip.  For an existing account and a store
    that answers: [forgot_password] mails a token; when the codec decodes
    that token to the claims it was signed with at the time of the reset
    and the hasher accepts the new password, [reset_password] accepts
    the token, after which [login] with that email succeeds with the
    passwords the verifier accepts against the hash of the new password,
    answers 400 for those it rejects and lets the verifier's exception
    out for those it refuses. *)
Theorem forgot_reset_login env1 env2 env3 e new_password w u h :
  find_by_email (rows w) e = Some u ->
  query_fails env1 = false -> commit_fails env1 = false ->
  query_fails env2 = false -> commit_fails env2 = false ->
  query_fails env3 = false ->
  pwd_hash (salt env2) new_password = Some h ->
  let token :=
    jwt_encode SECRET_KEY (mkPayload (Some e) (utcnow env1 + 3600)) in
  jwt_decode SECRET_KEY (utcnow env2) token
  = Claims (mkPayload (Some e) (utcnow env1 + 3600)) ->
  let w1 := snd (forgot_password env1 e w) in
  let w2 := snd (reset_password env2 token new_password w1) in
  In (EvAddTask e (reset_link token)) (events (forgot_password env1 e) w)
  /\ fst (reset_password env2 token new_password w1)
     = Return "Password reset successfully"
  /\ forall pw,
       fst (login env3 e pw w2)
       = match pwd_verify pw h with
         | Some true => Return "Login successful"
         | Some false => Raise (HTTPException 400 "Invalid password")
         | None => Raise PasswordValueError
         end.
Proof.
  intros Hf Hq1 Hc1 Hq2 Hc2 Hq3 Hh token Hdec w1 w2.
  destruct (forgot_password_issues_token env1 e w u Hq1 Hf Hc1)
    as (_ & Hf1 & Hev).
  fold token in Hf1, Hev. fold w1 in Hf1.
  pose proof (reset_password_success pwd_hash jwt_decode SECRET_KEY
                env2 token new_password w1 _ e _ h Hdec eq_refl Hf1 Hh Hq2 Hc2)
    as Hrun.
  split; [rewrite Hev; cbn; do 6 right; left; reflexivity|].
  split; [now rewrite Hrun|].
  intros pw.
  apply (find_by_email_update (SetPassword h)) in Hf1.
  assert (Hf2 : find_by_email (rows w2) e
                = Some (assign
                          (SetPassword h)
                          (User.mk (User.id u) (User.first_name u)
                             (User.last_name u) (User.email u)
                             (User.phone_number u) (User.password u)
                             (User.created_at u) (Some token)
                             (Some (utcnow2 env1 + 3600))))).
  { unfold w2. rewrite Hrun. cbn [snd rows]. exact Hf1. }
  rewrite (login_found env3 e pw w2 _ Hq3 Hf2).
  reflexivity.
Qed.

(** *** Register, once more *)

(** X18. Phone numbers are compared as integers: after a registration
    that succeeded, a registration whose phone number is the same digits
    behind one more zero, and whose password the hasher accepts, is
    refused with 400, whatever its email, and writes nothing. *)
Theorem register_refuses_phone_with_leading_zero
  env1 env2 b1 b2 user2 w m h2 :
  fst (post_register env1 b1 w) = Return m ->
  Body.phone_number b2 = String "0" (Body.phone_number b1) ->
  UserCreate_validate b2 = Some user2 ->
  pwd_hash (salt env2) (Body.password b2) = Some h2 ->
  query_fails env2 = false ->
  let w1 := snd (post_register env1 b1 w) in
  fst (post_register env2 b2 w1)
  = Raise (HTTPException 400 "Email or Phone Number already registered")
  /\ rows (snd (post_register env2 b2 w1)) = rows w1.
Proof.
  intros H1 Hphone Hval2 Hh2 Hq2 w1. subst w1.
  destruct (UserCreate_validate b1) as [user1|] eqn:Hval1.
  2:{ unfold_post_register. rewrite Hval1 in H1. discriminate. }
  destruct (UserCreate_validate_fields EmailStr _ _ Hval1) as (_ & Hp1 & _).
  destruct (UserCreate_validate_fields EmailStr _ _ Hval2)
    as (_ & Hp2 & _ & _ & Hpw2).
  rewrite <- Hpw2 in Hh2.
  apply validate_phone_number_some in Hp1, Hp2.
  destruct Hp1 as (_ & _ & Hn1). destruct Hp2 as (_ & _ & Hn2).
  rewrite Hphone in Hn2.
  assert (Hsame : UserCreate.phone_number user2
                  = UserCreate.phone_number user1).
  { rewrite Hn1, Hn2. reflexivity. }
  unfold_post_register. rewrite Hval1 in H1 |- *. rewrite Hval2.
  destruct (register_success_inv pwd_hash _ _ _ _ H1)
    as (h1 & Hh1 & Hq & Hf & Hc & Hr).
  rewrite (register_inserts pwd_hash env1 user1 w h1 Hh1 Hq Hf Hc Hr).
  cbn [snd].
  set (u1 := new_row (next_id w) (server_now env1) user1 h1).
  set (w1 := mkWorld _ _ _ _ _).
  assert (Hin : In u1 (rows w1)).
  { cbn. apply in_or_app. right. now left. }
  assert (Htaken : email_or_phone_taken user2 u1 = true).
  { unfold email_or_phone_taken, u1. cbn. rewrite Hsame, Z.eqb_refl.
    apply orb_true_r. }
  destruct (find_some_of_In _ _ _ Hin Htaken) as [x Hx].
  rewrite (register_conflict pwd_hash env2 user2 w1 x h2 Hh2 Hq2 Hx).
  cbn. auto.
Qed.

(** X19. What a successful registration stores: one more account,
    found by the validated email, with the names as submitted, the phone
    number as the integer its digits spell, the server's time as creation
    time and no reset pending; the accounts that were there are in front
    of it, unchanged. *)
Theorem register_stores_submitted_fields env b user w m :
  UserCreate_validate b = Some user ->
  fst (post_register env b w) = Return m ->
  exists u,
    rows (snd (post_register env b w)) = rows w ++ [u]
    /\ find_by_email (rows (snd (post_register env b w)))
         (UserCreate.email user) = Some u
    /\ EmailStr (Body.email b) = Some (User.email u)
    /\ User.first_name u = Body.first_name b
    /\ User.last_name u = Body.last_name b
    /\ User.phone_number u = int (Body.phone_number b)
    /\ User.created_at u = server_now env
    /\ User.reset_token u = None
    /\ User.reset_token_expires u = None.
Proof.
  intros Hval H1.
  destruct (UserCreate_validate_fields EmailStr _ _ Hval)
    as (He & Hp & Hfn & Hln & _).
  apply validate_phone_number_some in Hp. destruct Hp as (_ & _ & Hn).
  unfold_post_register. rewrite Hval in H1 |- *.
  destruct (register_success_inv pwd_hash _ _ _ _ H1)
    as (h & Hh & Hq & Hf & Hc & Hr).
  rewrite (register_inserts pwd_hash env user w h Hh Hq Hf Hc Hr).
  cbn [snd rows]. eexists. split; [reflexivity|]. split.
  - unfold find_by_email.
    rewrite (find_app_none _ _ _ (find_by_email_not_taken _ _ Hf)).
    cbn. now rewrite String.eqb_refl.
  - cbn. auto 10.
Qed.

End Requests.

(* ===================================================================== *)
(** ** These theorems at concrete requests *)
(* ===================================================================== *)

Lemma w_forgot_reachable : Toy.reachable Toy.w_forgot.
Proof.
  unfold Toy.reachable, Toy.w_forgot, Toy.w_alice, Toy.exec.
  apply reach_step. apply reach_step. apply reach_init.
Qed.

Lemma validate_phone_number_range_witness :
  validate_phone_number "1234567890" = Some 1234567890
  /\ 0 <= 1234567890 < 10 ^ len "1234567890".
Proof.
  split; [reflexivity|].
  apply (proj1 (validate_phone_number_range "1234567890" 1234567890 eq_refl)).
Defined.

Lemma validate_phone_number_leading_zero_witness :
  validate_phone_number "01234567890" = Some 1234567890.
Proof.
  apply (validate_phone_number_leading_zero "1234567890" 1234567890);
    reflexivity.
Defined.

Lemma w_two_reachable : Toy.reachable Toy.w_two.
Proof.
  unfold Toy.reachable, Toy.w_two, Toy.w_forgot, Toy.w_alice, Toy.exec.
  do 3 apply reach_step. apply reach_init.
Qed.

Example two_accounts :
  rows Toy.w_two
  = [User.mk 1 "Alice" "Liddell" "a@x.com" 1234567890 "$2b$p1" 100
       (Some Toy.alice_token) (Some 3800);
     Toy.bob_row].
Proof. reflexivity. Qed.

(** On the table with Alice and Bob. *)
Lemma reachable_unique_keys_witness :
  map User.id (rows Toy.w_two) = [1; 2]
  /\ map User.email (rows Toy.w_two) = ["a@x.com"; "b@x.com"]
  /\ map User.phone_number (rows Toy.w_two) = [1234567890; 9876543210]
  /\ NoDup (map User.id (rows Toy.w_two))
  /\ NoDup (map User.email (rows Toy.w_two))
  /\ NoDup (map User.phone_number (rows Toy.w_two)).
Proof.
  split; [reflexivity|]. split; [reflexivity|]. split; [reflexivity|].
  exact (reachable_unique_keys Toy.pwd_hash Toy.pwd_verify
           Toy.jwt_encode Toy.jwt_decode Toy.EmailStr
           Toy.SECRET_KEY Toy.w_two w_two_reachable).
Defined.

Lemma reachable_passwords_hashed_witness :
  Toy.reachable Toy.w_forgot
  /\ exists s p,
       Toy.pwd_hash s p
       = Some (User.password
                 (User.mk 1 "Alice" "Liddell" "a@x.com" 1234567890 "$2b$p1"
                    100 (Some Toy.alice_token) (Some 3800))).
Proof.
  split; [exact w_forgot_reachable|].
  apply (reachable_passwords_hashed Toy.pwd_hash Toy.pwd_verify
           Toy.jwt_encode Toy.jwt_decode Toy.EmailStr Toy.SECRET_KEY
           Toy.w_forgot w_forgot_reachable).
  left. reflexivity.
Defined.

Lemma reachable_tokens_issued_witness :
  Toy.reachable Toy.w_forgot
  /\ exists exp,
       Toy.alice_token
       = Toy.jwt_encode Toy.SECRET_KEY (mkPayload (Some "a@x.com") exp).
Proof.
  split; [exact w_forgot_reachable|].
  apply (reachable_tokens_issued Toy.pwd_hash Toy.pwd_verify
           Toy.jwt_encode Toy.jwt_decode Toy.EmailStr Toy.SECRET_KEY
           Toy.w_forgot w_forgot_reachable
           (User.mk 1 "Alice" "Liddell" "a@x.com" 1234567890 "$2b$p1" 100
              (Some Toy.alice_token) (Some 3800))
           Toy.alice_token).
  - left. reflexivity.
  - reflexivity.
Defined.

(** Alice logs in with her password: the lookup answers and the
    verifier does not raise; and she registers again: the hasher has
    accepted her password, and the refusal closes the session. *)
Lemma sessions_closed_witness :
  open_sessions
    (snd (Toy.exec (OpLogin (Toy.env_at 500) "a@x.com" "p1") Toy.w_alice))
  = open_sessions Toy.w_alice
  /\ open_sessions
       (snd (Toy.exec (OpRegister (Toy.env_at 150) Toy.alice) Toy.w_alice))
     = open_sessions Toy.w_alice.
Proof.
  split.
  - refine (proj1 (sessions_closed Toy.pwd_hash Toy.pwd_verify Toy.jwt_encode
                     Toy.jwt_decode Toy.EmailStr Toy.SECRET_KEY
                     (OpLogin (Toy.env_at 500) "a@x.com" "p1") Toy.w_alice
                     _)).
    split; [reflexivity|].
    intros u H. vm_compute in H. injection H as <-. discriminate.
  - refine (proj1 (sessions_closed Toy.pwd_hash Toy.pwd_verify Toy.jwt_encode
                     Toy.jwt_decode Toy.EmailStr Toy.SECRET_KEY
                     (OpRegister (Toy.env_at 150) Toy.alice) Toy.w_alice
                     _)).
    discriminate.
Defined.

(** On the table with Alice and Bob, a reset request for Alice: Bob's
    row is in the table afterwards as it was. *)
Lemma one_key_per_request_witness :
  In Toy.bob_row (rows Toy.w_two)
  /\ In Toy.bob_row
       (rows (snd (Toy.exec (OpForgotPassword (Toy.env_at 300) "a@x.com")
                     Toy.w_two)))
  /\ rows (snd (Toy.exec (OpForgotPassword (Toy.env_at 300) "a@x.com")
                  Toy.w_two)) <> rows Toy.w_two.
Proof.
  assert (Hbob : In Toy.bob_row (rows Toy.w_two)) by (right; left; reflexivity).
  split; [exact Hbob|]. split; [|vm_compute; discriminate].
  destruct (one_key_per_request Toy.pwd_hash Toy.pwd_verify Toy.jwt_encode
              Toy.jwt_decode Toy.EmailStr Toy.SECRET_KEY
              (OpForgotPassword (Toy.env_at 300) "a@x.com") Toy.w_two)
    as [k Hk].
  destruct (Z.eq_dec k 2) as [->|Hne].
  - exfalso.
    assert (Halice : In (User.mk 1 "Alice" "Liddell" "a@x.com" 1234567890
                           "$2b$p1" 100 (Some Toy.alice_token) (Some 3800))
                        (rows Toy.w_two)) by (left; reflexivity).
    specialize (Hk _ Halice ltac:(cbn; lia)).
    vm_compute in Hk. destruct Hk as [Hk|[Hk|[]]]; discriminate Hk.
  - apply Hk; [exact Hbob|]. cbn. lia.
Defined.

Lemma register_refresh_failure_keeps_account_witness :
  fst (Toy.register (Toy.env_refresh_fails 100) Toy.alice_user init_world)
  = Raise (HTTPException 500 "An error occurred during registration.")
  /\ rows (snd (Toy.register (Toy.env_refresh_fails 100) Toy.alice_user
                  init_world))
     = [Toy.alice_row].
Proof.
  destruct (register_refresh_failure_keeps_account Toy.pwd_hash
              (Toy.env_refresh_fails 100) Toy.alice_user init_world "$2b$p1"
              eq_refl eq_refl eq_refl eq_refl eq_refl) as (H1 & H2 & _).
  split; [exact H1 | exact H2].
Defined.

(** Alice once more on her own table: 400 and nothing written; and a
    password the hasher refuses: its exception, the session left open. *)
Lemma register_outcomes_witness :
  rows (snd (Toy.register (Toy.env_at 150) Toy.alice_user Toy.w_alice))
  = rows Toy.w_alice
  /\ fst (Toy.register (Toy.env_at 150)
            (UserCreate.mk "Dinah" "Cat" "d@x.com" 1112223334
               Toy.nul_password) Toy.w_alice)
     = Raise PasswordValueError
  /\ open_sessions
       (snd (Toy.register (Toy.env_at 150)
               (UserCreate.mk "Dinah" "Cat" "d@x.com" 1112223334
                  Toy.nul_password) Toy.w_alice))
     = S (open_sessions Toy.w_alice).
Proof.
  split.
  - refine (proj1 (proj2 (proj2 (register_outcomes Toy.pwd_hash
                                   (Toy.env_at 150) Toy.alice_user
                                   Toy.w_alice) _) eq_refl)).
    discriminate.
  - destruct (proj1 (register_outcomes Toy.pwd_hash (Toy.env_at 150)
                       (UserCreate.mk "Dinah" "Cat" "d@x.com" 1112223334
                          Toy.nul_password) Toy.w_alice) eq_refl)
      as (H1 & _ & H2).
    split; [exact H1 | exact H2].
Defined.

Lemma register_refuses_taken_email_or_phone_witness :
  fst (Toy.register (Toy.env_at 150) Toy.carol_user Toy.w_alice)
  = Raise (HTTPException 400 "Email or Phone Number already registered").
Proof.
  apply (register_refuses_taken_email_or_phone Toy.pwd_hash (Toy.env_at 150)
           Toy.carol_user Toy.w_alice Toy.alice_row "$2b$p3" eq_refl eq_refl).
  - left. reflexivity.
  - right. reflexivity.
Defined.

Lemma register_then_login_witness :
  fst (Toy.login (Toy.env_at 500) "a@x.com" "p1"
         (snd (Toy.post_register (Toy.env_at 100) Toy.alice init_world)))
  = Return "Login successful"
  /\ fst (Toy.login (Toy.env_at 500) "a@x.com" "p0"
            (snd (Toy.post_register (Toy.env_at 100) Toy.alice init_world)))
     = Raise (HTTPException 400 "Invalid password")
  /\ fst (Toy.login (Toy.env_at 500) "a@x.com" Toy.nul_password
            (snd (Toy.post_register (Toy.env_at 100) Toy.alice init_world)))
     = Raise PasswordValueError.
Proof.
  destruct (register_then_login Toy.pwd_hash Toy.pwd_verify Toy.EmailStr
              (Toy.env_at 100) (Toy.env_at 500) Toy.alice Toy.alice_user
              init_world "User registered successfully"
              eq_refl eq_refl eq_refl) as (h & Hh & H).
  injection Hh as <-.
  split; [exact (H "p1")|]. split; [exact (H "p0")|].
  exact (H Toy.nul_password).
Defined.

Lemma forgot_password_unknown_email_witness :
  fst (Toy.forgot_password (Toy.env_at 200) "z@x.com" Toy.w_alice)
  = Raise (HTTPException 404 "Email not found")
  /\ rows (snd (Toy.forgot_password (Toy.env_at 200) "z@x.com" Toy.w_alice))
     = rows Toy.w_alice.
Proof.
  destruct (forgot_password_unknown_email Toy.jwt_encode Toy.SECRET_KEY
              (Toy.env_at 200) "z@x.com" Toy.w_alice eq_refl eq_refl)
    as (H1 & H2 & _).
  split; [exact H1 | exact H2].
Defined.

Lemma forgot_password_issues_token_witness :
  fst (Toy.forgot_password (Toy.env_at 200) "a@x.com" Toy.w_alice)
  = Return "Password reset email sent"
  /\ find_by_email
       (rows (snd (Toy.forgot_password (Toy.env_at 200) "a@x.com"
                     Toy.w_alice))) "a@x.com"
     = Some (User.mk 1 "Alice" "Liddell" "a@x.com" 1234567890 "$2b$p1" 100
               (Some Toy.alice_token) (Some 3800)).
Proof.
  destruct (forgot_password_issues_token Toy.jwt_encode Toy.SECRET_KEY
              (Toy.env_at 200) "a@x.com" Toy.w_alice Toy.alice_row
              eq_refl eq_refl eq_refl) as (H1 & H2 & _).
  split; [exact H1 | exact H2].
Defined.

Lemma mail_only_after_commit_witness :
  fst (Toy.forgot_password (Toy.env_at 200) "a@x.com" Toy.w_alice)
  = Return "Password reset email sent".
Proof.
  apply (mail_only_after_commit Toy.jwt_encode Toy.SECRET_KEY
           (Toy.env_at 200) "a@x.com" Toy.w_alice
           "a@x.com" (reset_link Toy.alice_token)).
  vm_compute. do 6 right. left. reflexivity.
Defined.

Lemma reset_password_failures_witness :
  fst (Toy.reset_password (Toy.env_at 4000) Toy.alice_token "new1"
         Toy.w_forgot)
  = Raise (HTTPException 400 "Token has expired")
  /\ fst (Toy.reset_password (Toy.env_at 300) "secret|3800|z@x.com" "new1"
            Toy.w_forgot)
     = Raise (HTTPException 400 "Invalid token").
Proof.
  split.
  - apply (proj1 (reset_password_failures Toy.pwd_hash Toy.jwt_decode
                    Toy.SECRET_KEY (Toy.env_at 4000) Toy.alice_token "new1"
                    Toy.w_forgot) eq_refl).
  - apply (proj1 (proj2 (proj2 (reset_password_failures Toy.pwd_hash
                    Toy.jwt_decode Toy.SECRET_KEY (Toy.env_at 300)
                    "secret|3800|z@x.com" "new1" Toy.w_forgot)))
             (mkPayload (Some "z@x.com") 3800) eq_refl eq_refl).
    intros e [= <-]. reflexivity.
Defined.

Lemma forgot_reset_login_witness :
  fst (Toy.login (Toy.env_at 500) "a@x.com" "new1"
         (snd (Toy.reset_password (Toy.env_at 300) Toy.alice_token "new1"
                 (snd (Toy.forgot_password (Toy.env_at 200) "a@x.com"
                         Toy.w_alice)))))
  = Return "Login successful"
  /\ fst (Toy.login (Toy.env_at 500) "a@x.com" "p1"
            (snd (Toy.reset_password (Toy.env_at 300) Toy.alice_token "new1"
                    (snd (Toy.forgot_password (Toy.env_at 200) "a@x.com"
                            Toy.w_alice)))))
     = Raise (HTTPException 400 "Invalid password").
Proof.
  destruct (forgot_reset_login Toy.pwd_hash Toy.pwd_verify Toy.jwt_encode
              Toy.jwt_decode Toy.SECRET_KEY
              (Toy.env_at 200) (Toy.env_at 300) (Toy.env_at 500)
              "a@x.com" "new1" Toy.w_alice Toy.alice_row "$2b$new1"
              eq_refl eq_refl eq_refl eq_refl eq_refl eq_refl eq_refl eq_refl)
    as (_ & _ & H).
  split; [exact (H "new1") | exact (H "p1")].
Defined.

Lemma register_refuses_phone_with_leading_zero_witness :
  fst (Toy.post_register (Toy.env_at 150) Toy.bob_zero Toy.w_alice)
  = Raise (HTTPException 400 "Email or Phone Number already registered").
Proof.
  apply (register_refuses_phone_with_leading_zero Toy.pwd_hash Toy.EmailStr
           (Toy.env_at 100) (Toy.env_at 150) Toy.alice Toy.bob_zero
           (UserCreate.mk "Bob" "Hatter" "b@x.com" 1234567890 "p2")
           init_world "User registered successfully" "$2b$p2"
           eq_refl eq_refl eq_refl eq_refl eq_refl).
Defined.

Lemma register_stores_submitted_fields_witness :
  exists u,
    rows (snd (Toy.post_register (Toy.env_at 100) Toy.alice init_world))
    = [] ++ [u]
    /\ User.phone_number u = int "1234567890"
    /\ User.reset_token u = None.
Proof.
  destruct (register_stores_submitted_fields Toy.pwd_hash Toy.EmailStr
              (Toy.env_at 100) Toy.alice Toy.alice_user init_world
              "User registered successfully" eq_refl eq_refl)
    as (u & H1 & _ & _ & _ & _ & H2 & _ & H3 & _).
  exists u. repeat split; assumption.
Defined.
